(** * Blue-White Calculator: the safe arithmetic evaluator

    A shallow embedding of [blue_white_calculator.py]: the restricted
    syntax-tree walk [_eval_ast], the entry point [safe_eval] with its input
    normalisation, and the compute action [_calculate] of the window.

    The program is 45 lines of Python on top of the Python runtime, so the
    development has two layers.  The upper layer follows the source line by
    line.  The lower layer gives the meaning of what the source borrows from
    the runtime (CPython 3.8 to 3.13): text as sequences of code points, the
    numeric tower bool / int / float / complex with its coercions and
    exceptions, and the syntax trees of the [ast] module. *)

From Stdlib Require Import ZArith NArith List Bool Ascii String Lia.
From Stdlib Require Decimal DecimalN DecimalFacts.
From Stdlib Require Import SpecFloat.
Import ListNotations.

Set Implicit Arguments.
Set Warnings "-register-all".
Local Open Scope Z_scope.

(** ** Text *)

(** A Python [str] is a sequence of Unicode code points. *)
Definition char := N.
Definition pystr := list char.

(** The ASCII text of a Rocq string literal, as a Python [str]. *)
Definition py (s : string) : pystr := map N_of_ascii (list_ascii_of_string s).

Module Chr.
Definition times : char := 215%N.       (* U+00D7 MULTIPLICATION SIGN *)
Definition obelus : char := 247%N.      (* U+00F7 DIVISION SIGN *)
Definition minus : char := 8722%N.      (* U+2212 MINUS SIGN *)
Definition caret : char := 94%N.
Definition star : char := 42%N.
Definition slash : char := 47%N.
Definition hyphen : char := 45%N.
Definition plus : char := 43%N.
Definition percent : char := 37%N.
Definition dot : char := 46%N.
Definition comma : char := 44%N.
Definition lpar : char := 40%N.
Definition rpar : char := 41%N.
Definition lbracket : char := 91%N.
Definition rbracket : char := 93%N.
Definition squote : char := 39%N.
Definition dquote : char := 34%N.
Definition backslash : char := 92%N.
Definition underscore : char := 95%N.
Definition zero : char := 48%N.
End Chr.

(** [str.isspace] on one code point: the characters [str.split()] splits at. *)
Definition isspace (c : char) : bool :=
  ((9 <=? c) && (c <=? 13) || (28 <=? c) && (c <=? 32)
   || (c =? 133) || (c =? 160) || (c =? 5760)
   || (8192 <=? c) && (c <=? 8202)
   || (c =? 8232) || (c =? 8233) || (c =? 8239) || (c =? 8287)
   || (c =? 12288))%N.

(** [s.replace(old, new)] for a one-character [old]. *)
Fixpoint replace (old : char) (new : pystr) (s : pystr) : pystr :=
  match s with
  | [] => []
  | c :: s' => (if (c =? old)%N then new else [c]) ++ replace old new s'
  end.

(** [s.split()]: the maximal runs of non-space characters, in order.
    [cur] is the run being read, in reverse. *)
Fixpoint split_from (cur : pystr) (s : pystr) : list pystr :=
  match s with
  | [] => match cur with [] => [] | _ => [rev cur] end
  | c :: s' =>
      if isspace c
      then match cur with
           | [] => split_from [] s'
           | _ => rev cur :: split_from [] s'
           end
      else split_from (c :: cur) s'
  end.

Definition split (s : pystr) : list pystr := split_from [] s.

(** [''.join(parts)]. *)
Definition join (parts : list pystr) : pystr := List.concat parts.

(** The three statements of [safe_eval] that rewrite the input. *)
Definition sanitize (expr : pystr) : pystr :=
  let sanitized :=
    replace Chr.minus [Chr.hyphen]
      (replace Chr.obelus [Chr.slash]
         (replace Chr.times [Chr.star] expr)) in
  let sanitized := replace Chr.caret [Chr.star; Chr.star] sanitized in
  join (split sanitized).

(** ** Exceptions and results *)

(** The exception classes the evaluator can meet.  [ValueError] carries its
    message, since the source raises it with two different ones. *)
Inductive exn : Type :=
| SyntaxError
| ValueError (msg : string)
| ZeroDivisionError
| OverflowError
| TypeError.

Inductive result (A : Type) : Type :=
| OK (a : A)
| Raise (e : exn).
Arguments OK {A} a.
Arguments Raise {A} e.

Definition bind {A B : Type} (r : result A) (k : A -> result B) : result B :=
  match r with
  | OK a => k a
  | Raise e => Raise e
  end.

Notation "x <- r ;; k" := (bind r (fun x => k))
  (at level 61, r at next level, right associativity).

(** [ArithmeticError] has the subclasses [ZeroDivisionError] and
    [OverflowError]; the evaluator's own rejections are [ValueError]s. *)
Definition is_arithmetic_error (e : exn) : bool :=
  match e with
  | ZeroDivisionError | OverflowError => true
  | _ => false
  end.


(** ** Floats: IEEE 754 binary64 *)

Definition float := spec_float.

Module F.
Definition prec : Z := 53.
Definition emax : Z := 1024.

Definition add : float -> float -> float := SFadd prec emax.
Definition sub : float -> float -> float := SFsub prec emax.
Definition mul : float -> float -> float := SFmul prec emax.
Definition div : float -> float -> float := SFdiv prec emax.
Definition opp : float -> float := SFopp.
Definition abs : float -> float := SFabs.
Definition eqb : float -> float -> bool := SFeqb.
Definition ltb : float -> float -> bool := SFltb.
Definition leb : float -> float -> bool := SFleb.

(** The double nearest to an integer (ties to even, infinite past the
    largest double). *)
Definition of_Z (z : Z) : float := binary_normalize prec emax z 0 false.

(** The double nearest to [a / b] for integers [a] and [b <> 0]. *)
Definition of_quotient (a b : Z) : float :=
  match a, b with
  | Z0, _ => S754_zero (xorb (a <? 0) (b <? 0))
  | _, Z0 => S754_nan
  | _, _ =>
      div (S754_finite (a <? 0) (Z.to_pos (Z.abs a)) 0)
          (S754_finite (b <? 0) (Z.to_pos (Z.abs b)) 0)
  end.

(** The double nearest to [m * 10 ^ e]: the value of a decimal literal. *)
Definition of_decimal (m : N) (e : Z) : float :=
  if 0 <=? e then of_Z (Z.of_N m * 10 ^ e)
  else of_quotient (Z.of_N m) (10 ^ (- e)).

Definition zero : float := S754_zero false.
Definition one : float := of_Z 1.
Definition two : float := of_Z 2.
Definition hundred : float := of_Z 100.

Definition is_nan (x : float) : bool :=
  match x with S754_nan => true | _ => false end.
Definition is_infinite (x : float) : bool :=
  match x with S754_infinity _ => true | _ => false end.
Definition is_finite (x : float) : bool :=
  match x with S754_zero _ | S754_finite _ _ _ => true | _ => false end.
Definition is_zero (x : float) : bool :=
  match x with S754_zero _ => true | _ => false end.
Definition signbit (x : float) : bool :=
  match x with
  | S754_zero s | S754_infinity s | S754_finite s _ _ => s
  | S754_nan => false
  end.

(** [copysign(0.0, y)]. *)
Definition zero_like (y : float) : float := S754_zero (signbit y).

(** The integer a finite double denotes, when it denotes one. *)
Definition to_Z (x : float) : option Z :=
  match x with
  | S754_zero _ => Some 0
  | S754_finite s m e =>
      if 0 <=? e then Some (cond_Zopp s (Zpos m * 2 ^ e))
      else if (Zpos m mod 2 ^ (- e) =? 0)
           then Some (cond_Zopp s (Zpos m / 2 ^ (- e)))
           else None
  | _ => None
  end.

(** [floor(x) == x]. *)
Definition is_floor (x : float) : bool :=
  match x with
  | S754_nan => false
  | S754_infinity _ => true
  | _ => match to_Z x with Some _ => true | None => false end
  end.

(** C's [fmod]: exact, with the sign of [x]. *)
Definition fmod (x y : float) : float :=
  match x, y with
  | S754_nan, _ | _, S754_nan => S754_nan
  | S754_infinity _, _ => S754_nan
  | _, S754_zero _ => S754_nan
  | S754_zero _, _ => x
  | S754_finite _ _ _, S754_infinity _ => x
  | S754_finite sx mx ex, S754_finite _ my ey =>
      let e := Z.min ex ey in
      let r := (Zpos mx * 2 ^ (ex - e)) mod (Zpos my * 2 ^ (ey - e)) in
      binary_normalize prec emax (cond_Zopp sx r) e sx
  end.

(** CPython's [DOUBLE_IS_ODD_INTEGER]. *)
Definition is_odd_integer (x : float) : bool := eqb (fmod (abs x) two) one.
End F.

(** ** The C library *)

(** What the float and complex power take from the platform's C library.
    Its answers are not fixed by the language, so the evaluator is a function
    of them. *)
Record Libm : Type := {
  pow : float -> float -> float;
  hypot : float -> float -> float;
  atan2 : float -> float -> float;
  cos : float -> float;
  sin : float -> float;
  exp : float -> float;
  log : float -> float
}.

(** ** Values: the numeric tower *)

Record complex : Type := Complex { real : float; imag : float }.

(** The objects [_eval_ast] can return: [bool] (a subclass of [int]), [int],
    [float], and [complex], which only the power operator produces. *)
Inductive value : Type :=
| VBool (b : bool)
| VInt (z : Z)
| VFloat (f : float)
| VComplex (c : complex).

Definition is_real_value (v : value) : bool :=
  match v with VComplex _ => false | _ => true end.

(** The [int] behind an [int] or [bool] object. *)
Definition as_long (v : value) : option Z :=
  match v with
  | VBool b => Some (Z.b2z b)
  | VInt z => Some z
  | _ => None
  end.

(** [PyLong_AsDouble]. *)
Definition long_as_double (z : Z) : result float :=
  let f := F.of_Z z in
  if F.is_infinite f then Raise OverflowError else OK f.

(** [CONVERT_TO_DOUBLE] of floatobject.c, on an [int] or [float] object. *)
Definition convert_to_double (v : value) : result float :=
  match v with
  | VBool b => long_as_double (Z.b2z b)
  | VInt z => long_as_double z
  | VFloat f => OK f
  | VComplex _ => Raise TypeError
  end.

(** [TO_COMPLEX] of complexobject.c. *)
Definition to_complex (v : value) : result complex :=
  match v with
  | VComplex c => OK c
  | _ => f <- convert_to_double v ;; OK (Complex f F.zero)
  end.

(** The three ways a binary operator of the tower dispatches on its operands:
    both [int], else none [complex], else [complex]. *)
Definition arith
    (on_long : Z -> Z -> result value)
    (on_float : float -> float -> result value)
    (on_complex : complex -> complex -> result value)
    (v w : value) : result value :=
  match as_long v, as_long w with
  | Some a, Some b => on_long a b
  | _, _ =>
      if is_real_value v && is_real_value w
      then a <- convert_to_double v ;; b <- convert_to_double w ;; on_float a b
      else a <- to_complex v ;; b <- to_complex w ;; on_complex a b
  end.

(** *** Complex arithmetic (complexobject.c) *)

Definition c_1 : complex := Complex F.one F.zero.

Definition c_sum (a b : complex) : complex :=
  Complex (F.add (real a) (real b)) (F.add (imag a) (imag b)).

Definition c_diff (a b : complex) : complex :=
  Complex (F.sub (real a) (real b)) (F.sub (imag a) (imag b)).

Definition c_neg (a : complex) : complex :=
  Complex (F.opp (real a)) (F.opp (imag a)).

Definition c_prod (a b : complex) : complex :=
  Complex (F.sub (F.mul (real a) (real b)) (F.mul (imag a) (imag b)))
          (F.add (F.mul (real a) (imag b)) (F.mul (imag a) (real b))).

(** [_Py_c_quot]; [None] stands for [errno = EDOM]. *)
Definition c_quot (a b : complex) : option complex :=
  let abs_breal := F.abs (real b) in
  let abs_bimag := F.abs (imag b) in
  if F.leb abs_bimag abs_breal then
    if F.eqb abs_breal F.zero then None
    else
      let ratio := F.div (imag b) (real b) in
      let denom := F.add (real b) (F.mul (imag b) ratio) in
      Some (Complex (F.div (F.add (real a) (F.mul (imag a) ratio)) denom)
                    (F.div (F.sub (imag a) (F.mul (real a) ratio)) denom))
  else if F.leb abs_breal abs_bimag then
    let ratio := F.div (real b) (imag b) in
    let denom := F.add (F.mul (real b) ratio) (imag b) in
    Some (Complex (F.div (F.add (F.mul (real a) ratio) (imag a)) denom)
                  (F.div (F.sub (F.mul (imag a) ratio) (real a)) denom))
  else Some (Complex S754_nan S754_nan).

(** [c_powu]: the loop visits the bits of [n] from the lowest. *)
Fixpoint c_powu (r p : complex) (n : positive) : complex :=
  match n with
  | xH => c_prod r p
  | xO n' => c_powu r (c_prod p p) n'
  | xI n' => c_powu (c_prod r p) (c_prod p p) n'
  end.

(** [c_powi] for [-100 <= n <= 100]. *)
Definition c_powi (x : complex) (n : Z) : option complex :=
  match n with
  | Zpos p => Some (c_powu c_1 x p)
  | Z0 => c_quot c_1 c_1
  | Zneg p => c_quot c_1 (c_powu c_1 x p)
  end.

Section WithLibm.
Variable libm : Libm.

(** [_Py_c_pow]; [None] stands for [errno = EDOM]. *)
Definition _Py_c_pow (a b : complex) : option complex :=
  if F.eqb (real b) F.zero && F.eqb (imag b) F.zero then Some c_1
  else if F.eqb (real a) F.zero && F.eqb (imag a) F.zero then
    if negb (F.eqb (imag b) F.zero) || F.ltb (real b) F.zero
    then None
    else Some (Complex F.zero F.zero)
  else
    let vabs := hypot libm (real a) (imag a) in
    let len := pow libm vabs (real b) in
    let at_ := atan2 libm (imag a) (real a) in
    let phase := F.mul at_ (real b) in
    let '(len, phase) :=
      if negb (F.eqb (imag b) F.zero)
      then (F.div len (exp libm (F.mul at_ (imag b))),
            F.add phase (F.mul (imag b) (log libm vabs)))
      else (len, phase) in
    Some (Complex (F.mul len (cos libm phase)) (F.mul len (sin libm phase))).

(** [complex_pow]: a small integral exponent goes through [c_powi];
    [errno = EDOM] becomes [ZeroDivisionError], an infinite component
    [OverflowError]. *)
Definition complex_pow (a b : complex) : result value :=
  let p :=
    if F.eqb (imag b) F.zero && F.is_floor (real b)
       && F.leb (F.abs (real b)) F.hundred
    then match F.to_Z (real b) with
         | Some n => c_powi a n
         | None => _Py_c_pow a b
         end
    else _Py_c_pow a b in
  match p with
  | None => Raise ZeroDivisionError
  | Some p =>
      if F.is_infinite (real p) || F.is_infinite (imag p)
      then Raise OverflowError
      else OK (VComplex p)
  end.

(** [float_pow] of floatobject.c, on the two doubles. *)
Definition float_pow (iv iw : float) : result value :=
  if F.eqb iw F.zero then OK (VFloat F.one)
  else if F.is_nan iv then OK (VFloat iv)
  else if F.is_nan iw then OK (VFloat (if F.eqb iv F.one then F.one else iw))
  else if F.is_infinite iw then
    let iv := F.abs iv in
    if F.eqb iv F.one then OK (VFloat F.one)
    else if Bool.eqb (F.ltb F.zero iw) (F.ltb F.one iv)
         then OK (VFloat (F.abs iw))
         else OK (VFloat F.zero)
  else if F.is_infinite iv then
    let iw_is_odd := F.is_odd_integer iw in
    if F.ltb F.zero iw
    then OK (VFloat (if iw_is_odd then iv else F.abs iv))
    else OK (VFloat (if iw_is_odd then F.zero_like iv else F.zero))
  else if F.eqb iv F.zero then
    if F.ltb iw F.zero then Raise ZeroDivisionError
    else OK (VFloat (if F.is_odd_integer iw then iv else F.zero))
  else if F.ltb iv F.zero && negb (F.is_floor iw) then
    (* a negative number to a fractional power becomes complex *)
    complex_pow (Complex iv F.zero) (Complex iw F.zero)
  else
    let negate_result := F.ltb iv F.zero && F.is_odd_integer iw in
    let iv := F.abs iv in
    if F.eqb iv F.one
    then OK (VFloat (if negate_result then F.opp F.one else F.one))
    else
      let ix := pow libm iv iw in
      let ix := if negate_result then F.opp ix else ix in
      if F.is_infinite ix then Raise OverflowError else OK (VFloat ix).
End WithLibm.

(** *** The operators of the [operator] module *)

Module op.
Definition add : value -> value -> result value :=
  arith (fun a b => OK (VInt (a + b)))
        (fun a b => OK (VFloat (F.add a b)))
        (fun a b => OK (VComplex (c_sum a b))).

Definition sub : value -> value -> result value :=
  arith (fun a b => OK (VInt (a - b)))
        (fun a b => OK (VFloat (F.sub a b)))
        (fun a b => OK (VComplex (c_diff a b))).

Definition mul : value -> value -> result value :=
  arith (fun a b => OK (VInt (a * b)))
        (fun a b => OK (VFloat (F.mul a b)))
        (fun a b => OK (VComplex (c_prod a b))).

(** [long_true_divide]: the nearest double to the exact quotient. *)
Definition long_true_divide (a b : Z) : result value :=
  if b =? 0 then Raise ZeroDivisionError
  else
    let q := F.of_quotient a b in
    if F.is_infinite q then Raise OverflowError else OK (VFloat q).

Definition float_div (a b : float) : result value :=
  if F.eqb b F.zero then Raise ZeroDivisionError
  else OK (VFloat (F.div a b)).

Definition complex_div (a b : complex) : result value :=
  match c_quot a b with
  | None => Raise ZeroDivisionError
  | Some q => OK (VComplex q)
  end.

Definition truediv : value -> value -> result value :=
  arith long_true_divide float_div complex_div.

(** [long_mod]: the remainder takes the sign of the divisor. *)
Definition long_mod (a b : Z) : result value :=
  if b =? 0 then Raise ZeroDivisionError
  else OK (VInt (a mod b)).

(** [float_rem]. *)
Definition float_rem (vx wx : float) : result value :=
  if F.eqb wx F.zero then Raise ZeroDivisionError
  else
    let m := F.fmod vx wx in
    if negb (F.eqb m F.zero) then
      if negb (Bool.eqb (F.ltb wx F.zero) (F.ltb m F.zero))
      then OK (VFloat (F.add m wx))
      else OK (VFloat m)
    else OK (VFloat (F.zero_like wx)).

(** [complex] has no remainder: the operator fails before any conversion. *)
Definition mod_ : value -> value -> result value :=
  fun v w =>
    if is_real_value v && is_real_value w
    then arith long_mod float_rem (fun _ _ => Raise TypeError) v w
    else Raise TypeError.

Section WithLibm.
Variable libm : Libm.

(** [long_pow]: exact for an exponent that is not negative, else the
    float power of the two converted operands. *)
Definition long_pow (a b : Z) : result value :=
  if 0 <=? b then OK (VInt (a ^ b))
  else
    iv <- long_as_double a ;; iw <- long_as_double b ;;
    float_pow libm iv iw.

Definition pow : value -> value -> result value :=
  arith long_pow (float_pow libm) (complex_pow libm).
End WithLibm.

Definition pos (v : value) : result value :=
  match v with
  | VBool b => OK (VInt (Z.b2z b))
  | _ => OK v
  end.

Definition neg (v : value) : result value :=
  match v with
  | VBool b => OK (VInt (- Z.b2z b))
  | VInt z => OK (VInt (- z))
  | VFloat f => OK (VFloat (F.opp f))
  | VComplex c => OK (VComplex (c_neg c))
  end.
End op.

(** ** Syntax trees: the [ast] module *)

Module ast.
(** The value a [Constant] node holds. *)
Inductive constant : Type :=
| CNone
| CBool (b : bool)
| CInt (n : Z)
| CFloat (f : float)
| CComplex (c : complex)
| CStr (s : pystr)
| CBytes (b : list N)
| CEllipsis.

Inductive operator : Type :=
| Add | Sub | Mult | MatMult | Div | Mod | Pow
| LShift | RShift | BitOr | BitXor | BitAnd | FloorDiv.

Inductive unaryop : Type := Invert | Not | UAdd | USub.

Inductive boolop : Type := And | Or.

Inductive cmpop : Type :=
| CmpEq | NotEq | CmpLt | LtE | CmpGt | GtE | Is | IsNot | In_ | NotIn.

(** The node classes: [Expression] (what [ast.parse] returns in mode
    ['eval']), the statement [Expr], and the expression classes.  A field
    that holds no expression is kept only where it names something. *)
Inductive node : Type :=
| Expression (body : node)
| Expr (value : node)
| Constant (value : constant)
| BinOp (left : node) (op : operator) (right : node)
| UnaryOp (op : unaryop) (operand : node)
| BoolOp (op : boolop) (values : list node)
| Compare (left : node) (ops : list cmpop) (comparators : list node)
| NamedExpr (target value : node)
| IfExp (test body orelse : node)
| Lambda (args : list pystr) (body : node)
| Call (func : node) (args : list node)
| Attribute (value : node) (attr : pystr)
| Subscript (value slice : node)
| Slice (bounds : list node)
| Starred (value : node)
| Name (id : pystr)
| List (elts : list node)
| Tuple (elts : list node)
| Set_ (elts : list node)
| Dict (keys values : list node)
| ListComp (parts : list node)
| SetComp (parts : list node)
| DictComp (parts : list node)
| GeneratorExp (parts : list node)
| JoinedStr (values : list node)
| FormattedValue (value : node)
| Await (value : node)
| Yield (value : list node)
| YieldFrom (value : node).

Definition operator_eqb (a b : operator) : bool :=
  match a, b with
  | Add, Add | Sub, Sub | Mult, Mult | MatMult, MatMult | Div, Div
  | Mod, Mod | Pow, Pow | LShift, LShift | RShift, RShift
  | BitOr, BitOr | BitXor, BitXor | BitAnd, BitAnd
  | FloorDiv, FloorDiv => true
  | _, _ => false
  end.

Definition unaryop_eqb (a b : unaryop) : bool :=
  match a, b with
  | Invert, Invert | Not, Not | UAdd, UAdd | USub, USub => true
  | _, _ => false
  end.
End ast.

(** A Python [dict] read by key: the first entry under the key. *)
Fixpoint lookup {K V : Type} (eqb : K -> K -> bool) (d : list (K * V)) (k : K)
  : option V :=
  match d with
  | [] => None
  | (k', v) :: d' => if eqb k' k then Some v else lookup eqb d' k
  end.

(** ** The safe evaluator *)

Section Evaluator.
Variable libm : Libm.

Definition _ALLOWED_BINOP : list (ast.operator * (value -> value -> result value)) :=
  [ (ast.Add, op.add);
    (ast.Sub, op.sub);
    (ast.Mult, op.mul);
    (ast.Div, op.truediv);
    (ast.Mod, op.mod_);
    (ast.Pow, op.pow libm) ].

Definition _ALLOWED_UNARY : list (ast.unaryop * (value -> result value)) :=
  [ (ast.UAdd, op.pos);
    (ast.USub, op.neg) ].

(** [_eval_ast].  The branch on [ast.Num] does not appear: since Python 3.8
    the parser builds [Constant] nodes and [isinstance(node, ast.Num)] holds
    of numeric [Constant] nodes only, which the branch before it has taken.
    [isinstance(node.value, (int, float))] holds of [bool] values too, [bool]
    being a subclass of [int]. *)
Fixpoint _eval_ast (node : ast.node) : result value :=
  match node with
  | ast.Expression body => _eval_ast body
  | ast.Constant value =>
      match value with
      | ast.CBool b => OK (VBool b)
      | ast.CInt n => OK (VInt n)
      | ast.CFloat f => OK (VFloat f)
      | _ => Raise (ValueError "Unsupported constant")
      end
  | ast.BinOp left_ o right_ =>
      match lookup ast.operator_eqb _ALLOWED_BINOP o with
      | Some f =>
          left_ <- _eval_ast left_ ;;
          right_ <- _eval_ast right_ ;;
          f left_ right_
      | None => Raise (ValueError "Unsupported expression")
      end
  | ast.UnaryOp o operand =>
      match lookup ast.unaryop_eqb _ALLOWED_UNARY o with
      | Some f =>
          operand <- _eval_ast operand ;;
          f operand
      | None => Raise (ValueError "Unsupported expression")
      end
  | ast.Expr value => _eval_ast value
  | ast.Tuple _ => Raise (ValueError "Unsupported expression")
  | _ => Raise (ValueError "Unsupported expression")
  end.

Variable ast_parse : pystr -> result ast.node.

(** [safe_eval]; [ast_parse s] stands for [ast.parse(s, mode='eval')]. *)
Definition safe_eval (expr : pystr) : result value :=
  let sanitized := sanitize expr in
  match sanitized with
  | [] => OK (VInt 0)
  | _ =>
      tree <- ast_parse sanitized ;;
      _eval_ast tree
  end.
End Evaluator.

(** ** A model of [ast.parse(text, mode='eval')]

    The evaluator takes the parser as a parameter, and every theorem that
    speaks of all input texts is proved for all parsers (the round trip of C8
    for all that read integers as the model does).  To run [safe_eval] on
    concrete texts, [py_parse] below models the CPython parser on text without
    white space (all that [safe_eval] passes on), for this part of the
    expression grammar:

      - decimal integers, floats with a fraction and/or an exponent, and
        imaginary literals (no underscores, no radix prefixes);
      - names, [True], [False], [None], [...], and string literals in one pair
        of quotes without backslash or prefix;
      - the binary operators, the unary [+ - ~], comparisons with symbols,
        parentheses, tuples, list displays, calls with positional arguments,
        attribute access and subscripts.

    On any other text [py_parse] answers [SyntaxError]; CPython accepts some
    of them (lambda, conditional expressions, [not], [and], [or], [:=],
    braces, comprehensions, keyword arguments, slices). *)

Module Lexer.
Inductive token : Type :=
| NUMBER (c : ast.constant)
| NAME (id : pystr)
| STRING (s : pystr)
| ELLIPSIS
| PLUS | MINUS | STAR | SLASH | DOUBLESLASH | PERCENT | DOUBLESTAR | AT
| VBAR | CIRCUMFLEX | AMPER | LEFTSHIFT | RIGHTSHIFT | TILDE
| LESS | GREATER | EQEQUAL | NOTEQUAL | LESSEQUAL | GREATEREQUAL
| LPAR | RPAR | LSQB | RSQB | COMMA | DOT.

Definition is_digit (c : char) : bool := ((48 <=? c) && (c <=? 57))%N.

Definition is_name_start (c : char) : bool :=
  ((65 <=? c) && (c <=? 90) || (97 <=? c) && (c <=? 122) || (c =? 95))%N.

Definition is_name_char (c : char) : bool := is_name_start c || is_digit c.

(** The longest prefix of characters satisfying [p], and the rest. *)
Fixpoint span (p : char -> bool) (s : pystr) : pystr * pystr :=
  match s with
  | [] => ([], [])
  | c :: s' =>
      if p c then let '(a, b) := span p s' in (c :: a, b) else ([], s)
  end.

(** Decimal digits, most significant first, as a [Decimal.uint]. *)
Definition digit (c : char) (d : Decimal.uint) : Decimal.uint :=
  match (c - 48)%N with
  | 0 => Decimal.D0 d | 1 => Decimal.D1 d | 2 => Decimal.D2 d
  | 3 => Decimal.D3 d | 4 => Decimal.D4 d | 5 => Decimal.D5 d
  | 6 => Decimal.D6 d | 7 => Decimal.D7 d | 8 => Decimal.D8 d
  | _ => Decimal.D9 d
  end%N.

Definition uint_of_digits (ds : pystr) : Decimal.uint :=
  fold_right digit Decimal.Nil ds.

Definition N_of_digits (ds : pystr) : N := N.of_uint (uint_of_digits ds).

(** A decimal integer literal may start with 0 only if it is all zeros. *)
Definition no_leading_zero (ds : pystr) : bool :=
  match ds with
  | c :: _ :: _ => negb (c =? 48)%N || forallb (fun c => (c =? 48)%N) ds
  | _ => true
  end.

(** The exponent part ([e], an optional sign, digits) at the head of [s]:
    its value and the rest; [None] when [s] does not start with one. *)
Definition exponent (s : pystr) : option (Z * pystr) :=
  match s with
  | e :: s1 =>
      if ((e =? 101) || (e =? 69))%N then
        let '(sign, s2) :=
          match s1 with
          | c :: s2 => if (c =? 45)%N then (-1, s2)
                       else if (c =? 43)%N then (1, s2) else (1, s1)
          | [] => (1, s1)
          end in
        match span is_digit s2 with
        | ([], _) => None
        | (ds, rest) => Some (sign * Z.of_N (N_of_digits ds), rest)
        end
      else None
  | [] => None
  end.

(** A number at the head of [s] (which starts with a digit, or with a dot
    and a digit): the constant and the rest. *)
Definition number (s : pystr) : option (ast.constant * pystr) :=
  let '(ip, s1) := span is_digit s in
  let '(fp, has_dot, s2) :=
    match s1 with
    | c :: s1' =>
        if (c =? 46)%N
        then let '(fp, s2) := span is_digit s1' in (fp, true, s2)
        else ([], false, s1)
    | [] => ([], false, s1)
    end in
  let '(ex, has_exp, s3) :=
    match exponent s2 with
    | Some (ex, s3) => (ex, true, s3)
    | None => (0, false, s2)
    end in
  let '(is_imag, s4) :=
    match s3 with
    | c :: s4 => if ((c =? 106) || (c =? 74))%N then (true, s4) else (false, s3)
    | [] => (false, s3)
    end in
  let as_float :=
    F.of_decimal (N_of_digits (ip ++ fp)) (ex - Z.of_nat (List.length fp)) in
  let ends_well :=
    match s4 with
    | c :: _ => negb (is_name_char c)
    | [] => true
    end in
  match ip ++ fp with
  | [] => None
  | _ =>
      if negb ends_well then None
      else if is_imag then Some (ast.CComplex (Complex F.zero as_float), s4)
      else if has_dot || has_exp then Some (ast.CFloat as_float, s4)
      else if no_leading_zero ip
           then Some (ast.CInt (Z.of_N (N_of_digits ip)), s4)
           else None
  end.

(** A string literal body up to the closing [quote]: no backslash in it. *)
Fixpoint string_body (quote : char) (s : pystr) : option (pystr * pystr) :=
  match s with
  | [] => None
  | c :: s' =>
      if (c =? quote)%N then Some ([], s')
      else if (c =? 92)%N then None
      else match string_body quote s' with
           | Some (body, rest) => Some (c :: body, rest)
           | None => None
           end
  end.

Definition punct2 (c1 c2 : char) : option token :=
  if ((c1 =? 42) && (c2 =? 42))%N then Some DOUBLESTAR
  else if ((c1 =? 47) && (c2 =? 47))%N then Some DOUBLESLASH
  else if ((c1 =? 60) && (c2 =? 60))%N then Some LEFTSHIFT
  else if ((c1 =? 62) && (c2 =? 62))%N then Some RIGHTSHIFT
  else if ((c1 =? 61) && (c2 =? 61))%N then Some EQEQUAL
  else if ((c1 =? 33) && (c2 =? 61))%N then Some NOTEQUAL
  else if ((c1 =? 60) && (c2 =? 61))%N then Some LESSEQUAL
  else if ((c1 =? 62) && (c2 =? 61))%N then Some GREATEREQUAL
  else None.

Definition punct1 (c : char) : option token :=
  if (c =? 43)%N then Some PLUS
  else if (c =? 45)%N then Some MINUS
  else if (c =? 42)%N then Some STAR
  else if (c =? 47)%N then Some SLASH
  else if (c =? 37)%N then Some PERCENT
  else if (c =? 64)%N then Some AT
  else if (c =? 124)%N then Some VBAR
  else if (c =? 94)%N then Some CIRCUMFLEX
  else if (c =? 38)%N then Some AMPER
  else if (c =? 126)%N then Some TILDE
  else if (c =? 60)%N then Some LESS
  else if (c =? 62)%N then Some GREATER
  else if (c =? 40)%N then Some LPAR
  else if (c =? 41)%N then Some RPAR
  else if (c =? 91)%N then Some LSQB
  else if (c =? 93)%N then Some RSQB
  else if (c =? 44)%N then Some COMMA
  else if (c =? 46)%N then Some DOT
  else None.

(** A two-character operator if there is one, else a one-character one;
    [s1] and [s2] are the text after the first and the second character. *)
Definition one_or_two (c c2 : char) (s1 s2 : pystr) : option (token * pystr) :=
  match punct2 c c2 with
  | Some t => Some (t, s2)
  | None =>
      match punct1 c with
      | Some t => Some (t, s1)
      | None => None
      end
  end.

(** The first token of a non-empty text, and the rest. *)
Definition next_token (s : pystr) : option (token * pystr) :=
  match s with
  | [] => None
  | c :: s1 =>
      let starts_number :=
        is_digit c ||
        (c =? 46)%N && match s1 with d :: _ => is_digit d | [] => false end in
      if starts_number then
        match number s with
        | Some (k, rest) => Some (NUMBER k, rest)
        | None => None
        end
      else if is_name_start c then
        let '(id, rest) := span is_name_char s in
        match rest with
        | q :: _ => if ((q =? 39) || (q =? 34))%N then None
                    else Some (NAME id, rest)
        | [] => Some (NAME id, rest)
        end
      else if ((c =? 39) || (c =? 34))%N then
        match string_body c s1 with
        | Some (body, rest) => Some (STRING body, rest)
        | None => None
        end
      else
        match s1 with
        | c2 :: s2 =>
            match s2 with
            | c3 :: s3 =>
                if ((c =? 46) && (c2 =? 46) && (c3 =? 46))%N
                then Some (ELLIPSIS, s3)
                else one_or_two c c2 s1 s2
            | [] => one_or_two c c2 s1 s2
            end
        | [] =>
            match punct1 c with
            | Some t => Some (t, s1)
            | None => None
            end
        end
  end.

(** The tokens of a text; [None] is a lexical error.  Every token takes at
    least one character, so the length of the text bounds the work. *)
Fixpoint tokens_from (fuel : nat) (s : pystr) : option (list token) :=
  match s with
  | [] => Some []
  | _ =>
      match fuel with
      | O => None
      | S fuel' =>
          match next_token s with
          | Some (t, rest) =>
              match tokens_from fuel' rest with
              | Some ts => Some (t :: ts)
              | None => None
              end
          | None => None
          end
      end
  end.

Definition tokens (s : pystr) : option (list token) :=
  tokens_from (List.length s) s.
End Lexer.

Module Parser.
Import Lexer.

(** The levels of binary operators, from the loosest. *)
Inductive level : Type := BitOrL | BitXorL | BitAndL | ShiftL | ArithL | TermL.

Definition tighter (l : level) : option level :=
  match l with
  | BitOrL => Some BitXorL
  | BitXorL => Some BitAndL
  | BitAndL => Some ShiftL
  | ShiftL => Some ArithL
  | ArithL => Some TermL
  | TermL => None
  end.

Definition binop_at (l : level) (t : token) : option ast.operator :=
  match l, t with
  | BitOrL, VBAR => Some ast.BitOr
  | BitXorL, CIRCUMFLEX => Some ast.BitXor
  | BitAndL, AMPER => Some ast.BitAnd
  | ShiftL, LEFTSHIFT => Some ast.LShift
  | ShiftL, RIGHTSHIFT => Some ast.RShift
  | ArithL, PLUS => Some ast.Add
  | ArithL, MINUS => Some ast.Sub
  | TermL, STAR => Some ast.Mult
  | TermL, AT => Some ast.MatMult
  | TermL, SLASH => Some ast.Div
  | TermL, PERCENT => Some ast.Mod
  | TermL, DOUBLESLASH => Some ast.FloorDiv
  | _, _ => None
  end.

Definition unaryop_of (t : token) : option ast.unaryop :=
  match t with
  | PLUS => Some ast.UAdd
  | MINUS => Some ast.USub
  | TILDE => Some ast.Invert
  | _ => None
  end.

Definition cmpop_of (t : token) : option ast.cmpop :=
  match t with
  | LESS => Some ast.CmpLt
  | GREATER => Some ast.CmpGt
  | EQEQUAL => Some ast.CmpEq
  | NOTEQUAL => Some ast.NotEq
  | LESSEQUAL => Some ast.LtE
  | GREATEREQUAL => Some ast.GtE
  | _ => None
  end.

(** Reserved words other than [True], [False] and [None]. *)
Definition keywords : list pystr :=
  map py [ "and"; "as"; "assert"; "async"; "await"; "break"; "class";
           "continue"; "def"; "del"; "elif"; "else"; "except"; "finally";
           "for"; "from"; "global"; "if"; "import"; "in"; "is"; "lambda";
           "nonlocal"; "not"; "or"; "pass"; "raise"; "return"; "try";
           "while"; "with"; "yield" ]%string.

Definition pystr_eqb (a b : pystr) : bool :=
  if list_eq_dec N.eq_dec a b then true else false.

(** The node of a NAME token. *)
Definition name_atom (id : pystr) : option ast.node :=
  if pystr_eqb id (py "True") then Some (ast.Constant (ast.CBool true))
  else if pystr_eqb id (py "False") then Some (ast.Constant (ast.CBool false))
  else if pystr_eqb id (py "None") then Some (ast.Constant ast.CNone)
  else if existsb (pystr_eqb id) keywords then None
  else Some (ast.Name id).

(** Adjacent string literals are one constant. *)
Fixpoint more_strings (acc : pystr) (ts : list token) : pystr * list token :=
  match ts with
  | STRING s :: ts' => more_strings (acc ++ s) ts'
  | _ => (acc, ts)
  end.

(** A sequence [e, e, ...] in brackets: a lone expression in parentheses is
    itself, anything else a tuple. *)
Definition group (elts : list ast.node) (trailing_comma : bool) : ast.node :=
  match elts, trailing_comma with
  | [e], false => e
  | _, _ => ast.Tuple elts
  end.

Definition R : Type := option (ast.node * list token).

(** Recursive descent along CPython's grammar; [None] is a syntax error.
    - [test]: comparison
    - [binary l]: the operators of level [l], left to right
    - [factor]: unary operators;  [power]: [**], right to left
    - [trailers e]: calls, attributes and subscripts after the atom [e]
    - [exprs]: [test (',' test)* [',']], with whether a comma ended it *)
Fixpoint test (fuel : nat) (ts : list token) {struct fuel} : R :=
  match fuel with
  | O => None
  | S fuel =>
      match binary fuel BitOrL ts with
      | Some (e, ts') =>
          match comparisons fuel ts' with
          | Some ([], _, ts'') => Some (e, ts'')
          | Some (ops, es, ts'') => Some (ast.Compare e ops es, ts'')
          | None => None
          end
      | None => None
      end
  end

with comparisons (fuel : nat) (ts : list token) {struct fuel}
  : option (list ast.cmpop * list ast.node * list token) :=
  match fuel with
  | O => None
  | S fuel =>
      match ts with
      | t :: ts' =>
          match cmpop_of t with
          | Some o =>
              match binary fuel BitOrL ts' with
              | Some (e, ts'') =>
                  match comparisons fuel ts'' with
                  | Some (ops, es, rest) => Some (o :: ops, e :: es, rest)
                  | None => None
                  end
              | None => None
              end
          | None => Some ([], [], ts)
          end
      | [] => Some ([], [], ts)
      end
  end

with binary (fuel : nat) (l : level) (ts : list token) {struct fuel} : R :=
  match fuel with
  | O => None
  | S fuel =>
      match operand fuel l ts with
      | Some (e, ts') => binary_rest fuel l e ts'
      | None => None
      end
  end

with operand (fuel : nat) (l : level) (ts : list token) {struct fuel} : R :=
  match fuel with
  | O => None
  | S fuel =>
      match tighter l with
      | Some l' => binary fuel l' ts
      | None => factor fuel ts
      end
  end

with binary_rest (fuel : nat) (l : level) (lhs : ast.node) (ts : list token)
       {struct fuel} : R :=
  match fuel with
  | O => None
  | S fuel =>
      match ts with
      | t :: ts' =>
          match binop_at l t with
          | Some o =>
              match operand fuel l ts' with
              | Some (rhs, ts'') => binary_rest fuel l (ast.BinOp lhs o rhs) ts''
              | None => None
              end
          | None => Some (lhs, ts)
          end
      | [] => Some (lhs, ts)
      end
  end

with factor (fuel : nat) (ts : list token) {struct fuel} : R :=
  match fuel with
  | O => None
  | S fuel =>
      match ts with
      | t :: ts' =>
          match unaryop_of t with
          | Some o =>
              match factor fuel ts' with
              | Some (e, rest) => Some (ast.UnaryOp o e, rest)
              | None => None
              end
          | None => power fuel ts
          end
      | [] => None
      end
  end

with power (fuel : nat) (ts : list token) {struct fuel} : R :=
  match fuel with
  | O => None
  | S fuel =>
      match atom fuel ts with
      | Some (a, ts') =>
          match trailers fuel a ts' with
          | Some (e, DOUBLESTAR :: ts'') =>
              match factor fuel ts'' with
              | Some (x, rest) => Some (ast.BinOp e ast.Pow x, rest)
              | None => None
              end
          | r => r
          end
      | None => None
      end
  end

with trailers (fuel : nat) (e : ast.node) (ts : list token) {struct fuel} : R :=
  match fuel with
  | O => None
  | S fuel =>
      match ts with
      | LPAR :: RPAR :: ts' => trailers fuel (ast.Call e []) ts'
      | LPAR :: ts' =>
          match exprs fuel ts' with
          | Some (args, _, RPAR :: rest) => trailers fuel (ast.Call e args) rest
          | _ => None
          end
      | LSQB :: ts' =>
          match exprs fuel ts' with
          | Some (ix, comma, RSQB :: rest) =>
              trailers fuel (ast.Subscript e (group ix comma)) rest
          | _ => None
          end
      | DOT :: NAME attr :: ts' =>
          if existsb (pystr_eqb attr) keywords then None
          else trailers fuel (ast.Attribute e attr) ts'
      | DOT :: _ => None
      | _ => Some (e, ts)
      end
  end

with atom (fuel : nat) (ts : list token) {struct fuel} : R :=
  match fuel with
  | O => None
  | S fuel =>
      match ts with
      | NUMBER k :: ts' => Some (ast.Constant k, ts')
      | STRING s :: ts' =>
          let '(s', rest) := more_strings s ts' in
          Some (ast.Constant (ast.CStr s'), rest)
      | ELLIPSIS :: ts' => Some (ast.Constant ast.CEllipsis, ts')
      | NAME id :: ts' =>
          match name_atom id with
          | Some e => Some (e, ts')
          | None => None
          end
      | LPAR :: RPAR :: ts' => Some (ast.Tuple [], ts')
      | LPAR :: ts' =>
          match exprs fuel ts' with
          | Some (elts, comma, RPAR :: rest) => Some (group elts comma, rest)
          | _ => None
          end
      | LSQB :: RSQB :: ts' => Some (ast.List [], ts')
      | LSQB :: ts' =>
          match exprs fuel ts' with
          | Some (elts, _, RSQB :: rest) => Some (ast.List elts, rest)
          | _ => None
          end
      | _ => None
      end
  end

with exprs (fuel : nat) (ts : list token) {struct fuel}
  : option (list ast.node * bool * list token) :=
  match fuel with
  | O => None
  | S fuel =>
      match test fuel ts with
      | Some (e, COMMA :: ts') =>
          match ts' with
          | [] | RPAR :: _ | RSQB :: _ => Some ([e], true, ts')
          | _ =>
              match exprs fuel ts' with
              | Some (es, comma, rest) => Some (e :: es, comma, rest)
              | None => None
              end
          end
      | Some (e, ts') => Some ([e], false, ts')
      | None => None
      end
  end.

(** [eval_input]: one expression list, then the end of the text. *)
Definition eval_input (ts : list token) : option ast.node :=
  match exprs (20 * S (List.length ts)) ts with
  | Some (elts, comma, []) => Some (ast.Expression (group elts comma))
  | _ => None
  end.
End Parser.

Definition py_parse (text : pystr) : result ast.node :=
  match Lexer.tokens text with
  | Some ts =>
      match Parser.eval_input ts with
      | Some tree => OK tree
      | None => Raise SyntaxError
      end
  | None => Raise SyntaxError
  end.

(** ** [str] of a number *)

Module Str.
Fixpoint chars_of_uint (d : Decimal.uint) : pystr :=
  match d with
  | Decimal.Nil => []
  | Decimal.D0 d => 48%N :: chars_of_uint d
  | Decimal.D1 d => 49%N :: chars_of_uint d
  | Decimal.D2 d => 50%N :: chars_of_uint d
  | Decimal.D3 d => 51%N :: chars_of_uint d
  | Decimal.D4 d => 52%N :: chars_of_uint d
  | Decimal.D5 d => 53%N :: chars_of_uint d
  | Decimal.D6 d => 54%N :: chars_of_uint d
  | Decimal.D7 d => 55%N :: chars_of_uint d
  | Decimal.D8 d => 56%N :: chars_of_uint d
  | Decimal.D9 d => 57%N :: chars_of_uint d
  end.

(** The decimal digits of a natural number. *)
Definition digits (n : N) : pystr := chars_of_uint (N.to_uint n).

(** [str] of an [int].  (The limit on the number of digits that recent
    CPython versions can be set to enforce is not modelled.) *)
Definition of_long (z : Z) : pystr :=
  (if z <? 0 then [Chr.hyphen] else []) ++ digits (Z.abs_N z).

(** A positive finite double [m * 2 ^ e] is exactly [M * 10 ^ q]. *)
Definition exact_decimal (m : positive) (e : Z) : Z * Z :=
  if 0 <=? e then (Zpos m * 2 ^ e, 0) else (Zpos m * 5 ^ (- e), e).

(** The decimal with [n] significant digits nearest to [M * 10 ^ q] that
    reads back as [x], if one of the two neighbours does; [len] is the
    number of digits of [M]. *)
Definition try_digits (x : float) (M len q : Z) (n : Z) : option (Z * Z) :=
  if len <=? n then Some (M, q)
  else
    let scale := 10 ^ (len - n) in
    let lo := M / scale in
    let k := q + (len - n) in
    let '(first, second) :=
      match (2 * (M mod scale)) ?= scale with
      | Lt => (lo, lo + 1)
      | Gt => (lo + 1, lo)
      | Eq => if Z.even lo then (lo, lo + 1) else (lo + 1, lo)
      end in
    if F.eqb (F.of_decimal (Z.to_N first) k) x then Some (first, k)
    else if F.eqb (F.of_decimal (Z.to_N second) k) x then Some (second, k)
    else None.

Fixpoint shortest_from (fuel : nat) (x : float) (M len q : Z) (n : Z)
  : Z * Z :=
  match fuel with
  | O => (M, q)
  | S fuel' =>
      match try_digits x M len q n with
      | Some r => r
      | None => shortest_from fuel' x M len q (n + 1)
      end
  end.

(** Trailing zeros of the digits move into the exponent. *)
Fixpoint strip_zeros (fuel : nat) (D k : Z) : Z * Z :=
  match fuel with
  | O => (D, k)
  | S fuel' =>
      if (D mod 10 =? 0) && negb (D =? 0)
      then strip_zeros fuel' (D / 10) (k + 1)
      else (D, k)
  end.

(** The shortest digits that read back as the positive finite double
    [m * 2 ^ e], and the position of the decimal point before, inside or
    after them (dtoa's mode 0). *)
Definition shortest (m : positive) (e : Z) : pystr * Z :=
  let '(M, q) := exact_decimal m e in
  let len := Z.of_nat (List.length (digits (Z.to_N M))) in
  let '(D, k) := shortest_from 17 (S754_finite false m e) M len q 1 in
  let '(D, k) := strip_zeros (Z.to_nat len) D k in
  let ds := digits (Z.to_N D) in
  (ds, Z.of_nat (List.length ds) + k).

Definition zeros (n : Z) : pystr := repeat 48%N (Z.to_nat n).

(** The exponent as printf's [%+.02d] writes it. *)
Definition exponent (x : Z) : pystr :=
  (if x <? 0 then [Chr.hyphen] else [Chr.plus])
    ++ (if Z.abs x <? 10 then [48%N] else []) ++ digits (Z.abs_N x).

(** [format_float_short] in repr mode on the digits of a finite double:
    exponent notation from 1e16 and below 1e-4. *)
Definition layout (ds : pystr) (decpt : Z) (add_dot_0 : bool) : pystr :=
  if (decpt <=? -4) || (16 <? decpt) then
    match ds with
    | [] => []
    | d :: [] => d :: 101%N :: exponent (decpt - 1)
    | d :: ds' => d :: Chr.dot :: ds' ++ 101%N :: exponent (decpt - 1)
    end
  else if decpt <=? 0 then
    48%N :: Chr.dot :: zeros (- decpt) ++ ds
  else if Z.of_nat (List.length ds) <=? decpt then
    ds ++ zeros (decpt - Z.of_nat (List.length ds))
       ++ (if add_dot_0 then [Chr.dot; 48%N] else [])
  else
    firstn (Z.to_nat decpt) ds ++ Chr.dot :: skipn (Z.to_nat decpt) ds.

(** [PyOS_double_to_string(x, 'r', 0, flags, NULL)]. *)
Definition of_double (x : float) (add_dot_0 always_sign : bool) : pystr :=
  let sign (s : bool) :=
    if s then [Chr.hyphen] else if always_sign then [Chr.plus] else [] in
  match x with
  | S754_nan => sign false ++ py "nan"
  | S754_infinity s => sign s ++ py "inf"
  | S754_zero s => sign s ++ layout [48%N] 1 add_dot_0
  | S754_finite s m e =>
      let '(ds, decpt) := shortest m e in
      sign s ++ layout ds decpt add_dot_0
  end.

(** [repr] of a [float]. *)
Definition of_float (x : float) : pystr := of_double x true false.

(** [repr] of a [complex]. *)
Definition of_complex (c : complex) : pystr :=
  match real c with
  | S754_zero false => of_double (imag c) false false ++ py "j"
  | _ =>
      py "(" ++ of_double (real c) false false
             ++ of_double (imag c) false true ++ py "j)"
  end.
End Str.

(** [str(v)]. *)
Definition py_str (v : value) : pystr :=
  match v with
  | VBool true => py "True"
  | VBool false => py "False"
  | VInt z => Str.of_long z
  | VFloat f => Str.of_float f
  | VComplex c => Str.of_complex c
  end.

(** ** The window's actions *)

(** Of the window, the actions read and write the text of the display. *)
Record Calculator : Type := { display : pystr }.

Definition _insert_text (self : Calculator) (t : pystr) : Calculator :=
  {| display := display self ++ t |}.

Definition _clear (self : Calculator) : Calculator :=
  {| display := [] |}.

Definition _backspace (self : Calculator) : Calculator :=
  match display self with
  | [] => self
  | current => {| display := removelast current |}
  end.

(** [float.is_integer]. *)
Definition is_integer (f : float) : bool :=
  F.is_finite f && F.is_floor f.

(** [int(f)] for a float that [is_integer]. *)
Definition int_of_float (f : float) : Z :=
  match F.to_Z f with Some z => z | None => 0 end.

Section Shell.
Variable libm : Libm.
Variable ast_parse : pystr -> result ast.node.

(** [_calculate]: every exception is caught and shown as "Error". *)
Definition _calculate (self : Calculator) : Calculator :=
  let expr := display self in
  match safe_eval libm ast_parse expr with
  | OK result =>
      let result :=
        match result with
        | VFloat f => if is_integer f then VInt (int_of_float f) else result
        | _ => result
        end in
      {| display := py_str result |}
  | Raise _ => {| display := py "Error" |}
  end.
End Shell.

(** ** A sample of the C library

    The answers of the C library at the arguments the closed examples below
    reach: [pow(1, y) = 1], [hypot(x, 0) = |x|], [atan2(+0, x) = pi] for
    [x < 0], and the cosine and sine of the double nearest to pi/2.  NaN
    stands everywhere else.  The theorems hold for every [Libm]; the sample
    only serves to run examples that go through the power operator. *)

Module Sample.
Definition pi : float := F.of_decimal 3141592653589793 (-15).
Definition half_pi : float := F.of_decimal 15707963267948966 (-16).
Definition cos_half_pi : float := F.of_decimal 6123233995736766 (-32).

Definition libm : Libm := {|
  pow := fun x y => if F.eqb x F.one then F.one else S754_nan;
  hypot := fun x y => if F.is_zero y then F.abs x else S754_nan;
  atan2 := fun y x =>
    match y with
    | S754_zero false => if F.ltb x F.zero then pi else S754_nan
    | _ => S754_nan
    end;
  cos := fun x => if F.eqb x half_pi then cos_half_pi else S754_nan;
  sin := fun x => if F.eqb x half_pi then F.one else S754_nan;
  exp := fun _ => S754_nan;
  log := fun _ => S754_nan
|}.
End Sample.

(** ** Vocabulary of the properties *)

(** The binary and unary operators of the closed grammar. *)
Definition allowed_binop (o : ast.operator) : bool :=
  match o with
  | ast.Add | ast.Sub | ast.Mult | ast.Div | ast.Mod | ast.Pow => true
  | _ => false
  end.

Definition allowed_unary (o : ast.unaryop) : bool :=
  match o with
  | ast.UAdd | ast.USub => true
  | _ => false
  end.

(** A node that is itself a construct outside the closed grammar: anything
    but a constant, a binary or unary operation with a supported operator,
    and the two wrappers. *)
Definition outside_grammar (n : ast.node) : bool :=
  match n with
  | ast.Expression _ | ast.Expr _ | ast.Constant _ => false
  | ast.BinOp _ o _ => negb (allowed_binop o)
  | ast.UnaryOp o _ => negb (allowed_unary o)
  | _ => true
  end.


(** [performs libm t s]: evaluating [t] comes to evaluate [s], every operand
    evaluated before [s] having returned a value. *)
Inductive performs (libm : Libm) : ast.node -> ast.node -> Prop :=
| performs_here t : performs libm t t
| performs_expression b s :
    performs libm b s -> performs libm (ast.Expression b) s
| performs_expr b s : performs libm b s -> performs libm (ast.Expr b) s
| performs_left l o r s :
    allowed_binop o = true -> performs libm l s ->
    performs libm (ast.BinOp l o r) s
| performs_right l o r s v :
    allowed_binop o = true -> _eval_ast libm l = OK v -> performs libm r s ->
    performs libm (ast.BinOp l o r) s
| performs_operand o e s :
    allowed_unary o = true -> performs libm e s ->
    performs libm (ast.UnaryOp o e) s.

(** A value that is exactly zero: [False], [0], [0.0], [-0.0], and a complex
    number with both parts zero. *)
Definition is_zero_value (v : value) : bool :=
  match v with
  | VBool b => negb b
  | VInt z => z =? 0
  | VFloat f => F.is_zero f
  | VComplex c => F.is_zero (real c) && F.is_zero (imag c)
  end.



(** The condition of the complex branch of the power: a finite negative base
    and a finite exponent that is not integral. *)
Definition negative_to_fractional (iv iw : float) : bool :=
  F.is_finite iv && F.ltb iv F.zero && F.is_finite iw && negb (F.is_floor iw).

(** Characters that the normalisation leaves alone. *)
Definition plain (c : char) : bool :=
  negb (isspace c) && negb (c =? Chr.times)%N && negb (c =? Chr.obelus)%N
  && negb (c =? Chr.minus)%N && negb (c =? Chr.caret)%N.

(** ** The buttons and keys of the window *)

(** [_type_char]: [event.char] is the empty string for a key that types
    nothing. *)
Definition _type_char (self : Calculator) (ch : pystr) : Calculator :=
  match ch with
  | [] => self
  | _ => {| display := display self ++ ch |}
  end.

Module Key.
Definition erase : pystr := [9003%N].            (* U+232B ERASE TO THE LEFT *)
Definition clear : pystr := py "C".
Definition equals : pystr := py "=".
End Key.

(** The button definitions of [__init__]: text, row, column, kind. *)
Definition buttons : list (pystr * nat * nat * string) :=
  [ (Key.clear, 0, 0, "ctrl"); (Key.erase, 0, 1, "ctrl");
    (py "%", 0, 2, "op"); ([Chr.obelus], 0, 3, "op");
    (py "7", 1, 0, "num"); (py "8", 1, 1, "num");
    (py "9", 1, 2, "num"); ([Chr.times], 1, 3, "op");
    (py "4", 2, 0, "num"); (py "5", 2, 1, "num");
    (py "6", 2, 2, "num"); ([Chr.minus], 2, 3, "op");
    (py "1", 3, 0, "num"); (py "2", 3, 1, "num");
    (py "3", 3, 2, "num"); (py "+", 3, 3, "op");
    (py "0", 4, 1, "num"); (py ".", 4, 2, "num");
    (Key.equals, 4, 3, "eq") ]%nat%string.

(** The texts whose button is bound to an action other than typing. *)
Definition is_control (text : pystr) : bool :=
  Parser.pystr_eqb text Key.clear || Parser.pystr_eqb text Key.erase
  || Parser.pystr_eqb text Key.equals.

Section Buttons.
Variable libm : Libm.
Variable ast_parse : pystr -> result ast.node.

(** The command [_make_button] binds to the button with the text [text]. *)
Definition command (text : pystr) : Calculator -> Calculator :=
  if Parser.pystr_eqb text Key.clear then _clear
  else if Parser.pystr_eqb text Key.erase then _backspace
  else if Parser.pystr_eqb text Key.equals then _calculate libm ast_parse
  else fun self => _insert_text self text.

(** Pressing buttons one after the other. *)
Definition press (texts : list pystr) (self : Calculator) : Calculator :=
  fold_left (fun w text => command text w) texts self.
End Buttons.

(** ** More vocabulary *)

(** The constants the evaluator returns. *)
Definition numeric_constant (c : ast.constant) : bool :=
  match c with
  | ast.CBool _ | ast.CInt _ | ast.CFloat _ => true
  | _ => false
  end.

(** A tree all of whose nodes are within the closed grammar. *)
Fixpoint in_grammar (t : ast.node) : bool :=
  match t with
  | ast.Expression b | ast.Expr b => in_grammar b
  | ast.Constant c => numeric_constant c
  | ast.BinOp l o r => allowed_binop o && in_grammar l && in_grammar r
  | ast.UnaryOp o e => allowed_unary o && in_grammar e
  | _ => false
  end.



(** * Properties *)

(** ** Input normalisation *)

Lemma join_split_from (cur s : pystr) :
  join (split_from cur s)
  = List.rev cur ++ filter (fun c => negb (isspace c)) s.
Proof.
  revert cur. induction s as [|c s IH]; intros cur; simpl.
  - destruct cur; simpl; now rewrite ?app_nil_r.
  - destruct (isspace c) eqn:Hc; simpl.
    + destruct cur as [|c' cur']; simpl.
      * now rewrite IH.
      * unfold join in *. simpl. now rewrite IH.
    + rewrite IH. simpl. now rewrite <- app_assoc.
Qed.

(** Splitting at white space and joining with the empty string removes the
    white space and nothing else. *)
Lemma join_split (s : pystr) :
  join (split s) = filter (fun c => negb (isspace c)) s.
Proof. unfold split. now rewrite join_split_from. Qed.

Lemma replace_absent (old : char) (new s : pystr) :
  forallb (fun c => negb (c =? old)%N) s = true -> replace old new s = s.
Proof.
  induction s as [|c s IH]; simpl; [reflexivity|].
  intros H. apply andb_prop in H as [Hc Hs].
  apply negb_true_iff in Hc. rewrite Hc. simpl. now rewrite IH.
Qed.

Lemma spaces_lack (old : char) (s : pystr) :
  isspace old = false -> forallb isspace s = true ->
  forallb (fun c => negb (c =? old)%N) s = true.
Proof.
  intros Hold. induction s as [|c s IH]; simpl; [reflexivity|].
  intros H. apply andb_prop in H as [Hc Hs]. rewrite IH by assumption.
  rewrite andb_true_r. apply negb_true_iff. apply N.eqb_neq.
  intros ->. congruence.
Qed.

Lemma sanitize_spaces (s : pystr) :
  forallb isspace s = true -> sanitize s = [].
Proof.
  intros H. unfold sanitize.
  rewrite (replace_absent Chr.times), (replace_absent Chr.obelus),
    (replace_absent Chr.minus), (replace_absent Chr.caret)
    by (apply spaces_lack; [reflexivity | assumption]).
  rewrite join_split. induction s as [|c s IH]; simpl in *; [reflexivity|].
  apply andb_prop in H as [Hc Hs]. rewrite Hc. simpl. now apply IH.
Qed.

Lemma filter_nil_forallb (s : pystr) :
  filter (fun c => negb (isspace c)) s = [] -> forallb isspace s = true.
Proof.
  induction s as [|c s IH]; simpl; [reflexivity|].
  destruct (isspace c); simpl; [assumption | discriminate].
Qed.

(** What a replacement writes for a space is never read as one: a text whose
    normal form is empty was all white space. *)
Lemma replace_keeps_spaces (old : char) (new s : pystr) :
  forallb (fun c => negb (isspace c)) new = true -> new <> [] ->
  forallb isspace (replace old new s) = true -> forallb isspace s = true.
Proof.
  intros Hnew Hne. induction s as [|c s IH]; simpl; [reflexivity|].
  rewrite forallb_app. intros H. apply andb_prop in H as [Hc Hs].
  rewrite (IH Hs), andb_true_r.
  destruct (c =? old)%N.
  - destruct new as [|n new']; [congruence|]. simpl in *.
    apply andb_prop in Hnew as [Hn _]. apply andb_prop in Hc as [Hc _].
    rewrite Hc in Hn. discriminate.
  - simpl in Hc. now rewrite andb_true_r in Hc.
Qed.

Lemma sanitize_nil (s : pystr) :
  sanitize s = [] -> forallb isspace s = true.
Proof.
  unfold sanitize. rewrite join_split. intros H.
  apply filter_nil_forallb in H.
  apply replace_keeps_spaces in H; [|reflexivity|discriminate].
  apply replace_keeps_spaces in H; [|reflexivity|discriminate].
  apply replace_keeps_spaces in H; [|reflexivity|discriminate].
  apply replace_keeps_spaces in H; [|reflexivity|discriminate].
  exact H.
Qed.

(** C4. A text that is empty or made of white space only evaluates to the
    integer 0, whatever the parser would say of it: the parser is not
    consulted.  (By [sanitize_nil] no other text has an empty normal form: the
    display symbols are rewritten to operators, not removed.) *)
Theorem blank_input_is_zero
    (libm : Libm) (ast_parse : pystr -> result ast.node) (expr : pystr) :
  forallb isspace expr = true ->
  safe_eval libm ast_parse expr = OK (VInt 0).
Proof.
  intros H. unfold safe_eval. now rewrite (sanitize_spaces expr H).
Qed.

Lemma blank_input_is_zero_witness :
  forallb isspace [32; 9; 160; 12288]%N = true /\
  safe_eval Sample.libm py_parse [32; 9; 160; 12288]%N = OK (VInt 0).
Proof.
  split; [reflexivity|]. apply blank_input_is_zero. reflexivity.
Defined.

(** ** The tree walk *)

Lemma eval_binop_allowed (libm : Libm) l o r :
  allowed_binop o = true ->
  exists f,
    lookup ast.operator_eqb (_ALLOWED_BINOP libm) o = Some f /\
    _eval_ast libm (ast.BinOp l o r)
    = (vl <- _eval_ast libm l ;; vr <- _eval_ast libm r ;; f vl vr).
Proof.
  intros Ho. destruct o; try discriminate Ho; eexists; split; reflexivity.
Qed.

Lemma eval_unary_allowed (libm : Libm) o e :
  allowed_unary o = true ->
  exists f,
    lookup ast.unaryop_eqb _ALLOWED_UNARY o = Some f /\
    _eval_ast libm (ast.UnaryOp o e) = (v <- _eval_ast libm e ;; f v).
Proof.
  intros Ho. destruct o; try discriminate Ho; eexists; split; reflexivity.
Qed.

(** A construct outside the closed grammar is refused where it stands. *)
Lemma outside_grammar_raises (libm : Libm) (n : ast.node) :
  outside_grammar n = true ->
  _eval_ast libm n = Raise (ValueError "Unsupported expression").
Proof.
  destruct n; simpl; try discriminate; try reflexivity;
    match goal with
    | o : ast.operator |- _ => destruct o
    | o : ast.unaryop |- _ => destruct o
    end; simpl; (discriminate || reflexivity).
Qed.

(** An exception raised where the evaluation has come is the outcome of the
    whole evaluation: nothing in [_eval_ast] catches it. *)
Lemma performs_raise (libm : Libm) t s e :
  performs libm t s -> _eval_ast libm s = Raise e -> _eval_ast libm t = Raise e.
Proof.
  induction 1 as [t|b s _ IH|b s _ IH|l o r s Ho _ IH|l o r s v Ho Hl _ IH
                 |o x s Ho _ IH]; intros Hs.
  - assumption.
  - simpl. auto.
  - simpl. auto.
  - destruct (@eval_binop_allowed libm l o r Ho) as (f & _ & ->).
    now rewrite (IH Hs).
  - destruct (@eval_binop_allowed libm l o r Ho) as (f & _ & ->).
    rewrite Hl. simpl. now rewrite (IH Hs).
  - destruct (@eval_unary_allowed libm o x Ho) as (f & _ & ->).
    now rewrite (IH Hs).
Qed.





(** ** Division and modulo by zero *)

Lemma long_as_double_cases (z : Z) :
  long_as_double z = Raise OverflowError \/ exists f, long_as_double z = OK f.
Proof.
  unfold long_as_double. destruct (F.is_infinite (F.of_Z z)); eauto.
Qed.

Lemma convert_zero (w : value) :
  is_real_value w = true -> is_zero_value w = true ->
  exists f, convert_to_double w = OK f /\ F.is_zero f = true.
Proof.
  destruct w as [[]|z|f|c]; simpl; try discriminate; intros _ H.
  - now exists F.zero.
  - apply Z.eqb_eq in H. subst z. now exists F.zero.
  - now exists f.
Qed.

Lemma convert_cases (v : value) :
  is_real_value v = true ->
  convert_to_double v = Raise OverflowError \/
  exists f, convert_to_double v = OK f.
Proof.
  destruct v as [b|z|f|c]; simpl; try discriminate; intros _;
    try apply long_as_double_cases.
  right. now exists f.
Qed.

Lemma to_complex_cases (v : value) :
  to_complex v = Raise OverflowError \/ exists c, to_complex v = OK c.
Proof.
  destruct v as [b|z|f|c]; simpl.
  - destruct (long_as_double_cases (Z.b2z b)) as [->|[f ->]]; simpl; eauto.
  - destruct (long_as_double_cases z) as [->|[f ->]]; simpl; eauto.
  - eauto.
  - eauto.
Qed.

Lemma to_complex_zero (w : value) :
  is_zero_value w = true ->
  exists c, to_complex w = OK c /\
            F.is_zero (real c) = true /\ F.is_zero (imag c) = true.
Proof.
  destruct w as [[]|z|f|c]; simpl; try discriminate; intros H.
  - now exists (Complex F.zero F.zero).
  - apply Z.eqb_eq in H. subst z. now exists (Complex F.zero F.zero).
  - now exists (Complex f F.zero).
  - apply andb_prop in H. now exists c.
Qed.

Lemma float_div_zero (a b : float) :
  F.is_zero b = true -> op.float_div a b = Raise ZeroDivisionError.
Proof. destruct b as [[]| | |]; simpl; try discriminate; reflexivity. Qed.

Lemma float_rem_zero (a b : float) :
  F.is_zero b = true -> op.float_rem a b = Raise ZeroDivisionError.
Proof. destruct b as [[]| | |]; simpl; try discriminate; reflexivity. Qed.

Lemma c_quot_zero (a b : complex) :
  F.is_zero (real b) = true -> F.is_zero (imag b) = true -> c_quot a b = None.
Proof.
  destruct b as [[[]| | |] [[]| | |]]; simpl; try discriminate; reflexivity.
Qed.

Lemma as_long_zero (w : value) (b : Z) :
  is_zero_value w = true -> as_long w = Some b -> b = 0.
Proof.
  destruct w as [[]|z|f|c]; simpl; intros Hw Ew; try discriminate;
    injection Ew as <-; [reflexivity | now apply Z.eqb_eq].
Qed.

Lemma tower_div_zero (v w : value) :
  is_zero_value w = true ->
  exists e,
    (if is_real_value v && is_real_value w
     then a <- convert_to_double v ;; b <- convert_to_double w ;;
          op.float_div a b
     else a <- to_complex v ;; b <- to_complex w ;; op.complex_div a b)
    = Raise e /\ is_arithmetic_error e = true.
Proof.
  intros Hw. destruct (is_real_value v && is_real_value w) eqn:Er.
  - apply andb_prop in Er as [Hv Hr].
    destruct (convert_zero w Hr Hw) as (g & -> & Hg).
    destruct (convert_cases v Hv) as [->|[f ->]]; simpl.
    + now exists OverflowError.
    + rewrite (float_div_zero f g Hg). now exists ZeroDivisionError.
  - destruct (to_complex_zero w Hw) as (d & -> & Hre & Him).
    destruct (to_complex_cases v) as [->|[c ->]]; simpl.
    + now exists OverflowError.
    + unfold op.complex_div. rewrite (c_quot_zero c d Hre Him).
      now exists ZeroDivisionError.
Qed.

(** True division by a zero of any type raises an arithmetic error: the
    division's [ZeroDivisionError], or the [OverflowError] of an [int] operand
    too large for the conversion that comes first. *)
Lemma truediv_zero (v w : value) :
  is_zero_value w = true ->
  exists e, op.truediv v w = Raise e /\ is_arithmetic_error e = true.
Proof.
  intros Hw. unfold op.truediv, arith.
  destruct (as_long v) as [a|] eqn:Ev, (as_long w) as [b|] eqn:Ew;
    try now apply tower_div_zero.
  rewrite (as_long_zero w Hw Ew).
  exists ZeroDivisionError. split; reflexivity.
Qed.

Lemma tower_rem_zero (v w : value) :
  is_real_value v = true -> is_real_value w = true ->
  is_zero_value w = true ->
  exists e,
    (a <- convert_to_double v ;; b <- convert_to_double w ;; op.float_rem a b)
    = Raise e /\ is_arithmetic_error e = true.
Proof.
  intros Hv Hr Hw.
  destruct (convert_zero w Hr Hw) as (g & -> & Hg).
  destruct (convert_cases v Hv) as [->|[f ->]]; simpl.
  - now exists OverflowError.
  - rewrite (float_rem_zero f g Hg). now exists ZeroDivisionError.
Qed.

(** Modulo by zero: an arithmetic error between real operands, and the
    [TypeError] of every modulo with a complex operand. *)
Lemma mod_zero (v w : value) :
  is_zero_value w = true ->
  exists e, op.mod_ v w = Raise e /\
    if is_real_value v && is_real_value w
    then is_arithmetic_error e = true
    else e = TypeError.
Proof.
  intros Hw. unfold op.mod_.
  destruct (is_real_value v && is_real_value w) eqn:Er;
    [|now exists TypeError].
  apply andb_prop in Er as [Hv Hr]. unfold arith. rewrite Hv, Hr. simpl.
  destruct (as_long v) as [a|] eqn:Ev, (as_long w) as [b|] eqn:Ew;
    try now apply tower_rem_zero.
  rewrite (as_long_zero w Hw Ew).
  exists ZeroDivisionError. split; reflexivity.
Qed.

(** C2, as the code has it.  When the evaluation of an input comes to a
    division or a modulo whose right operand evaluates to exactly zero, the
    evaluation fails and returns no value, so no infinity and no NaN.  The
    failure is an arithmetic error, except for a modulo with a complex
    operand, which Python refuses with a [TypeError]. *)
Theorem zero_division_fails
    (libm : Libm) (ast_parse : pystr -> result ast.node)
    (expr : pystr) (t l r : ast.node) (o : ast.operator) (vl vr : value) :
  sanitize expr <> [] ->
  ast_parse (sanitize expr) = OK t ->
  performs libm t (ast.BinOp l o r) ->
  o = ast.Div \/ o = ast.Mod ->
  _eval_ast libm l = OK vl ->
  _eval_ast libm r = OK vr ->
  is_zero_value vr = true ->
  exists e,
    safe_eval libm ast_parse expr = Raise e /\
    match o with
    | ast.Mod =>
        if is_real_value vl && is_real_value vr
        then is_arithmetic_error e = true
        else e = TypeError
    | _ => is_arithmetic_error e = true
    end.
Proof.
  intros Hne Hparse Hp Ho Hl Hr Hz.
  assert (Heq : safe_eval libm ast_parse expr = _eval_ast libm t).
  { unfold safe_eval. destruct (sanitize expr) eqn:E; [congruence|].
    now rewrite Hparse. }
  rewrite Heq.
  destruct Ho as [-> | ->].
  - destruct (truediv_zero vl vr Hz) as (e & He & Ha).
    exists e. split; [|assumption].
    apply performs_raise with (ast.BinOp l ast.Div r); [assumption|].
    simpl. rewrite Hl, Hr. exact He.
  - destruct (mod_zero vl vr Hz) as (e & He & Ha).
    exists e. split; [|assumption].
    apply performs_raise with (ast.BinOp l ast.Mod r); [assumption|].
    simpl. rewrite Hl, Hr. exact He.
Qed.

Lemma zero_division_fails_witness :
  exists e,
    safe_eval Sample.libm py_parse (py "2*(5%0)") = Raise e /\
    is_arithmetic_error e = true.
Proof.
  apply (@zero_division_fails Sample.libm py_parse (py "2*(5%0)")
           (ast.Expression
              (ast.BinOp (ast.Constant (ast.CInt 2)) ast.Mult
                 (ast.BinOp (ast.Constant (ast.CInt 5)) ast.Mod
                            (ast.Constant (ast.CInt 0)))))
           (ast.Constant (ast.CInt 5)) (ast.Constant (ast.CInt 0))
           ast.Mod (VInt 5) (VInt 0)).
  - discriminate.
  - reflexivity.
  - apply performs_expression.
    apply performs_right with (VInt 2); [reflexivity | reflexivity |].
    apply performs_here.
  - now right.
  - reflexivity.
  - reflexivity.
  - reflexivity.
Defined.

(** C2 as stated fails: in "((-1)**0.5)%0" the modulo has the right operand
    0 and a complex left operand, and the evaluation ends with a [TypeError],
    which is not an arithmetic error. *)
Lemma complex_modulo_zero_is_type_error :
  _eval_ast Sample.libm
    (ast.BinOp (ast.UnaryOp ast.USub (ast.Constant (ast.CInt 1))) ast.Pow
               (ast.Constant (ast.CFloat (F.of_decimal 5 (-1)))))
  = OK (VComplex (Complex Sample.cos_half_pi F.one)) /\
  is_zero_value (VInt 0) = true /\
  safe_eval Sample.libm py_parse (py "((-1)**0.5)%0") = Raise TypeError /\
  is_arithmetic_error TypeError = false.
Proof. repeat split; reflexivity. Qed.

(** ** Integer arithmetic is exact *)






(** ** Constants *)

(** Constants that are no numbers are refused, and so are the displays of
    collections, which are no constants at all. *)
Lemma non_numeric_constant_rejected (libm : Libm) (c : ast.constant) :
  match c with
  | ast.CBool _ | ast.CInt _ | ast.CFloat _ => True
  | _ => _eval_ast libm (ast.Constant c)
         = Raise (ValueError "Unsupported constant")
  end.
Proof. destruct c; simpl; auto. Qed.

Lemma collection_display_rejected (libm : Libm) (elts keys : list ast.node) :
  _eval_ast libm (ast.List elts) = Raise (ValueError "Unsupported expression") /\
  _eval_ast libm (ast.Tuple elts) = Raise (ValueError "Unsupported expression") /\
  _eval_ast libm (ast.Set_ elts) = Raise (ValueError "Unsupported expression") /\
  _eval_ast libm (ast.Dict keys elts)
  = Raise (ValueError "Unsupported expression").
Proof. repeat split. Qed.

(** C5 fails on the code for the boolean literals.  [True] and [False] pass
    the test [isinstance(node.value, (int, float))], so they are returned as
    values, take part in arithmetic as 1 and 0, and the window shows "True"
    where the specification wants a rejection. *)
Theorem boolean_literal_accepted (libm : Libm) :
  (forall b, _eval_ast libm (ast.Constant (ast.CBool b)) = OK (VBool b)) /\
  safe_eval libm py_parse (py "True") = OK (VBool true) /\
  safe_eval libm py_parse (py "False") = OK (VBool false) /\
  safe_eval libm py_parse (py "True+True") = OK (VInt 2) /\
  display (_calculate libm py_parse {| display := py "True" |}) = py "True".
Proof. repeat split. Qed.

(** ** The power operator *)

Lemma complex_pow_cases (libm : Libm) (a b : complex) :
  match complex_pow libm a b with
  | OK (VComplex _) => True
  | OK _ => False
  | Raise e => e = ZeroDivisionError \/ e = OverflowError
  end.
Proof.
  unfold complex_pow.
  match goal with
  | |- context [match ?p with Some _ => _ | None => _ end] => destruct p
  end; [|now left].
  match goal with
  | |- context [if ?c then _ else _] => destruct c
  end; [now right | exact I].
Qed.

(** The outcomes of the float power: a float, a complex number (only from a
    negative base and an exponent that is not integral), or an arithmetic
    error. *)
Lemma float_pow_cases (libm : Libm) (iv iw : float) :
  match float_pow libm iv iw with
  | OK (VFloat _) => True
  | OK (VComplex _) => F.ltb iv F.zero = true /\ F.is_floor iw = false
  | OK _ => False
  | Raise e => e = ZeroDivisionError \/ e = OverflowError
  end.
Proof.
  unfold float_pow.
  repeat match goal with
  | |- context [if F.eqb iw F.zero then _ else _] =>
      destruct (F.eqb iw F.zero); [exact I|]
  | |- context [if F.is_nan iv then _ else _] =>
      destruct (F.is_nan iv); [exact I|]
  | |- context [if F.is_nan iw then _ else _] =>
      destruct (F.is_nan iw); [exact I|]
  | |- context [if F.is_infinite iw then _ else _] =>
      destruct (F.is_infinite iw);
      [destruct (F.eqb (F.abs iv) F.one); [exact I|];
       destruct (Bool.eqb (F.ltb F.zero iw) (F.ltb F.one (F.abs iv)));
       exact I|]
  | |- context [if F.is_infinite iv then _ else _] =>
      destruct (F.is_infinite iv); [destruct (F.ltb F.zero iw); exact I|]
  | |- context [if F.eqb iv F.zero then _ else _] =>
      destruct (F.eqb iv F.zero);
      [destruct (F.ltb iw F.zero); [now left | exact I]|]
  end.
  destruct (F.ltb iv F.zero) eqn:Hneg, (F.is_floor iw) eqn:Hfl; simpl.
  - destruct (F.eqb (F.abs iv) F.one); [exact I|].
    match goal with
    | |- context [if F.is_infinite ?x then _ else _] =>
        destruct (F.is_infinite x); [now right | exact I]
    end.
  - pose proof (complex_pow_cases libm (Complex iv F.zero) (Complex iw F.zero))
      as H.
    destruct (complex_pow libm (Complex iv F.zero) (Complex iw F.zero))
      as [[| | |]|]; auto.
  - destruct (F.eqb (F.abs iv) F.one); [exact I|].
    destruct (F.is_infinite (pow libm (F.abs iv) iw)); [now right | exact I].
  - destruct (F.eqb (F.abs iv) F.one); [exact I|].
    destruct (F.is_infinite (pow libm (F.abs iv) iw)); [now right | exact I].
Qed.

(** A finite negative base to a finite exponent that is not integral goes to
    the complex power, which answers with a complex number unless a part of
    it overflows. *)
Lemma float_pow_negative_fractional (libm : Libm) (iv iw : float) :
  negative_to_fractional iv iw = true ->
  (exists c, float_pow libm iv iw = OK (VComplex c)) \/
  float_pow libm iv iw = Raise OverflowError.
Proof.
  unfold negative_to_fractional. intros H.
  apply andb_prop in H as [H Hfl]. apply andb_prop in H as [H Hfw].
  apply andb_prop in H as [Hfv Hneg]. apply negb_true_iff in Hfl.
  assert (Hw0 : F.eqb iw F.zero = false).
  { destruct iw as [s| | |[] m e]; try discriminate; reflexivity. }
  assert (Hv0 : F.eqb iv F.zero = false).
  { destruct iv as [s| | |[] m e]; try discriminate; reflexivity. }
  assert (E : float_pow libm iv iw
              = complex_pow libm (Complex iv F.zero) (Complex iw F.zero)).
  { unfold float_pow. rewrite Hw0, Hv0, Hneg, Hfl.
    destruct iv as [| | |sv mv ev]; try discriminate.
    destruct iw as [| | |sw mw ew]; try discriminate.
    reflexivity. }
  rewrite E. unfold complex_pow. simpl real. simpl imag.
  rewrite Hfl, andb_false_r. simpl.
  unfold _Py_c_pow. simpl real. simpl imag. rewrite Hw0, Hv0. simpl.
  match goal with
  | |- context [if ?c then Raise OverflowError else _] => destruct c
  end; eauto.
Qed.

Lemma convert_long (v : value) (a : Z) :
  as_long v = Some a -> convert_to_double v = long_as_double a.
Proof. destruct v; simpl; intros H; try discriminate; now injection H as <-. Qed.

Lemma float_pow_of_reals (libm : Libm) (v w : value) :
  is_real_value v = true -> is_real_value w = true ->
  match (iv <- convert_to_double v ;; iw <- convert_to_double w ;;
         float_pow libm iv iw) with
  | OK (VFloat _) => True
  | OK (VComplex _) =>
      exists iv iw,
        convert_to_double v = OK iv /\ convert_to_double w = OK iw /\
        F.ltb iv F.zero = true /\ F.is_floor iw = false
  | OK _ => False
  | Raise e => e = ZeroDivisionError \/ e = OverflowError
  end.
Proof.
  intros Hv Hw.
  destruct (convert_cases v Hv) as [->|[iv Eiv]]; simpl; [now right|].
  destruct (convert_cases w Hw) as [->|[iw Eiw]];
    rewrite Eiv; simpl; [now right|].
  rewrite Eiw. simpl.
  pose proof (float_pow_cases libm iv iw) as H.
  destruct (float_pow libm iv iw) as [[| | |]|]; auto.
  exists iv, iw. tauto.
Qed.

(** C6, as the code has it.  On real operands the power yields the exact
    integer for two [int]s with an exponent that is not negative; otherwise it
    works on the two doubles and yields a float, or fails with
    [ZeroDivisionError] (zero to a negative power) or [OverflowError].  A
    finite negative base to an exponent that is not integral is no failure:
    the result is a complex number, unless it overflows. *)
Theorem power_outcomes (libm : Libm) (v w : value) :
  is_real_value v = true ->
  is_real_value w = true ->
  match op.pow libm v w with
  | OK (VBool _) => False
  | OK (VInt n) =>
      exists a b, as_long v = Some a /\ as_long w = Some b /\
                  0 <= b /\ n = a ^ b
  | OK (VFloat _) => True
  | OK (VComplex _) =>
      exists iv iw,
        convert_to_double v = OK iv /\ convert_to_double w = OK iw /\
        F.ltb iv F.zero = true /\ F.is_floor iw = false
  | Raise e => e = ZeroDivisionError \/ e = OverflowError
  end /\
  (forall iv iw,
      convert_to_double v = OK iv ->
      w = VFloat iw ->
      negative_to_fractional iv iw = true ->
      (exists c, op.pow libm v w = OK (VComplex c)) \/
      op.pow libm v w = Raise OverflowError).
Proof.
  intros Hv Hw. split.
  - unfold op.pow, arith.
    destruct (as_long v) as [a|] eqn:Ev, (as_long w) as [b|] eqn:Ew;
      rewrite ?Hv, ?Hw; simpl;
      try (pose proof (float_pow_of_reals libm v w Hv Hw) as H;
           destruct (iv <- convert_to_double v ;; iw <- convert_to_double w ;;
                     float_pow libm iv iw) as [[| | |]|]; now auto).
    unfold op.long_pow. destruct (0 <=? b) eqn:Hb.
    + exists a, b. apply Z.leb_le in Hb. auto.
    + pose proof (float_pow_of_reals libm v w Hv Hw) as H.
      rewrite (convert_long v Ev), (convert_long w Ew) in H.
      destruct (iv <- long_as_double a ;; iw <- long_as_double b ;;
                float_pow libm iv iw) as [[| | |]|]; try now auto.
      destruct H as (iv & iw & H1 & H2 & H3).
      exists iv, iw.
      now rewrite (convert_long v Ev), (convert_long w Ew).
  - intros iv iw Eiv -> Hnf.
    unfold op.pow, arith.
    replace (as_long (VFloat iw)) with (@None Z) by reflexivity.
    rewrite Hv. simpl.
    destruct (as_long v); rewrite Eiv; simpl;
      now apply float_pow_negative_fractional.
Qed.

Lemma power_outcomes_witness :
  (exists c, op.pow Sample.libm (VInt (-8)) (VFloat (F.of_decimal 5 (-1)))
             = OK (VComplex c)) \/
  op.pow Sample.libm (VInt (-8)) (VFloat (F.of_decimal 5 (-1)))
  = Raise OverflowError.
Proof.
  apply (proj2 (@power_outcomes Sample.libm (VInt (-8))
                  (VFloat (F.of_decimal 5 (-1))) eq_refl eq_refl)
           (F.of_Z (-8)) (F.of_decimal 5 (-1))); reflexivity.
Defined.

(** C6 as stated fails: "(-1)**0.5" does not fail; it evaluates to the
    complex number that Python prints as (6.123233995736766e-17+1j). *)
Lemma negative_base_fractional_exponent_is_complex :
  safe_eval Sample.libm py_parse (py "(-1)**0.5")
  = OK (VComplex (Complex (F.of_decimal 6123233995736766 (-32)) F.one)) /\
  py_str (VComplex (Complex (F.of_decimal 6123233995736766 (-32)) F.one))
  = py "(6.123233995736766e-17+1j)".
Proof. split; reflexivity. Qed.

(** ** The compute action *)





(** ** Reading back what the window writes *)














Lemma filter_plain (s : pystr) :
  forallb plain s = true -> filter (fun c => negb (isspace c)) s = s.
Proof.
  induction s as [|c s IH]; simpl; [reflexivity|].
  intros H. apply andb_prop in H as [Hc Hs]. unfold plain in Hc.
  repeat (apply andb_prop in Hc as [Hc ?]). rewrite Hc. now rewrite IH.
Qed.

Lemma plain_lacks (s : pystr) (old : char) :
  (forall c, plain c = true -> (c =? old)%N = false) ->
  forallb plain s = true ->
  forallb (fun c => negb (c =? old)%N) s = true.
Proof.
  intros Hold. induction s as [|c s IH]; simpl; [reflexivity|].
  intros H. apply andb_prop in H as [Hc Hs].
  now rewrite (Hold c Hc), IH.
Qed.

Lemma sanitize_plain (s : pystr) : forallb plain s = true -> sanitize s = s.
Proof.
  intros H. unfold sanitize.
  rewrite (replace_absent Chr.times), (replace_absent Chr.obelus),
    (replace_absent Chr.minus), (replace_absent Chr.caret);
    try (apply plain_lacks; [|assumption]; intros c Hc; unfold plain in Hc;
         repeat (apply andb_prop in Hc as [Hc ?]);
         now apply negb_true_iff).
  rewrite join_split. now apply filter_plain.
Qed.






(** ** Determinism *)


(** ** Scientific notation *)

(** C10.  The numeric literal "1e5" is accepted: CPython's tokenizer reads it
    as a float literal, [_eval_ast] returns the constant, and the result is
    the float 100000.0, which the window shows as "100000". *)
Theorem scientific_notation_accepted (libm : Libm) :
  py_parse (py "1e5")
  = OK (ast.Expression (ast.Constant (ast.CFloat (F.of_Z 100000)))) /\
  safe_eval libm py_parse (py "1e5") = OK (VFloat (F.of_Z 100000)) /\
  py_str (VFloat (F.of_Z 100000)) = py "100000.0" /\
  display (_calculate libm py_parse {| display := py "1e5" |}) = py "100000".
Proof. repeat split; reflexivity. Qed.

(** * Further properties of the evaluator *)

(** X1.  The evaluator returns a value only for a tree all of whose nodes are
    within the closed grammar: numeric constants under the six binary and the
    two unary operators.  A node of any other kind, at any depth, is never
    skipped. *)
Theorem success_within_grammar (libm : Libm) (t : ast.node) (v : value) :
  _eval_ast libm t = OK v -> in_grammar t = true.
Proof.
  revert v. induction t; intros v Hv; try discriminate Hv.
  - simpl in *. eauto.
  - simpl in *. eauto.
  - match goal with c : ast.constant |- _ => destruct c end;
      (discriminate Hv || reflexivity).
  - match goal with o : ast.operator |- _ =>
      destruct (allowed_binop o) eqn:Ho;
      [ destruct (@eval_binop_allowed libm t1 o t2 Ho) as (f & _ & E)
      | rewrite outside_grammar_raises in Hv
          by (simpl; now rewrite Ho); discriminate Hv ]
    end.
    rewrite E in Hv.
    destruct (_eval_ast libm t1) as [v1|]; [|discriminate Hv].
    destruct (_eval_ast libm t2) as [v2|]; [|discriminate Hv].
    simpl. now rewrite Ho, (IHt1 v1), (IHt2 v2).
  - match goal with o : ast.unaryop |- _ =>
      destruct (allowed_unary o) eqn:Ho;
      [ destruct (@eval_unary_allowed libm o t Ho) as (f & _ & E)
      | rewrite outside_grammar_raises in Hv
          by (simpl; now rewrite Ho); discriminate Hv ]
    end.
    rewrite E in Hv.
    destruct (_eval_ast libm t) as [v1|]; [|discriminate Hv].
    simpl. now rewrite Ho, (IHt v1).
Qed.

Lemma success_within_grammar_witness :
  in_grammar
    (ast.Expression
       (ast.BinOp (ast.Constant (ast.CInt 7)) ast.Div
                  (ast.UnaryOp ast.USub (ast.Constant (ast.CFloat F.two)))))
  = true.
Proof.
  apply (@success_within_grammar Sample.libm _
           (VFloat (F.opp (F.of_decimal 35 (-1))))).
  reflexivity.
Defined.






(** X13.  An unsupported binary operator is refused before its operands are
    looked at: the floor division of "1/0" by 2 is a rejection, not a division
    by zero.  Under a supported operator the operands are evaluated from left
    to right and the first failure is the outcome. *)
Theorem operands_in_order (libm : Libm) (l r : ast.node) (o : ast.operator) :
  (allowed_binop o = false ->
   _eval_ast libm (ast.BinOp l o r)
   = Raise (ValueError "Unsupported expression")) /\
  (allowed_binop o = true ->
   forall e, _eval_ast libm l = Raise e ->
             _eval_ast libm (ast.BinOp l o r) = Raise e) /\
  (allowed_binop o = true ->
   forall v e, _eval_ast libm l = OK v -> _eval_ast libm r = Raise e ->
               _eval_ast libm (ast.BinOp l o r) = Raise e).
Proof.
  repeat split.
  - intros Ho. apply outside_grammar_raises. simpl. now rewrite Ho.
  - intros Ho e He.
    destruct (@eval_binop_allowed libm l o r Ho) as (f & _ & ->).
    now rewrite He.
  - intros Ho v e Hv He.
    destruct (@eval_binop_allowed libm l o r Ho) as (f & _ & ->).
    now rewrite Hv, He.
Qed.

(** * Further properties of the normalisation *)

Lemma replace_app (old : char) (new a b : pystr) :
  replace old new (a ++ b) = replace old new a ++ replace old new b.
Proof.
  induction a as [|c a IH]; simpl; [reflexivity|].
  now rewrite IH, app_assoc.
Qed.

Lemma sanitize_app (a b : pystr) : sanitize (a ++ b) = sanitize a ++ sanitize b.
Proof.
  unfold sanitize. rewrite !replace_app, !join_split. apply filter_app.
Qed.

Lemma replace_single (old : char) (new : pystr) (c : char) :
  replace old new [c] = if (c =? old)%N then new else [c].
Proof. simpl. now rewrite app_nil_r. Qed.

(** The normal form of one character. *)
Lemma sanitize_char (c : char) :
  sanitize [c]
  = if isspace c then []
    else if (c =? Chr.times)%N then [Chr.star]
    else if (c =? Chr.obelus)%N then [Chr.slash]
    else if (c =? Chr.minus)%N then [Chr.hyphen]
    else if (c =? Chr.caret)%N then [Chr.star; Chr.star]
    else [c].
Proof.
  unfold sanitize. rewrite join_split.
  rewrite (replace_single Chr.times).
  destruct (c =? Chr.times)%N eqn:E1.
  { apply N.eqb_eq in E1. subst c. reflexivity. }
  rewrite (replace_single Chr.obelus).
  destruct (c =? Chr.obelus)%N eqn:E2.
  { apply N.eqb_eq in E2. subst c. reflexivity. }
  rewrite (replace_single Chr.minus).
  destruct (c =? Chr.minus)%N eqn:E3.
  { apply N.eqb_eq in E3. subst c. reflexivity. }
  rewrite (replace_single Chr.caret).
  destruct (c =? Chr.caret)%N eqn:E4.
  { apply N.eqb_eq in E4. subst c. reflexivity. }
  simpl. destruct (isspace c); reflexivity.
Qed.

Lemma sanitize_char_plain (c : char) : forallb plain (sanitize [c]) = true.
Proof.
  rewrite sanitize_char.
  destruct (isspace c) eqn:Hs; [reflexivity|].
  destruct (c =? Chr.times)%N eqn:E1; [reflexivity|].
  destruct (c =? Chr.obelus)%N eqn:E2; [reflexivity|].
  destruct (c =? Chr.minus)%N eqn:E3; [reflexivity|].
  destruct (c =? Chr.caret)%N eqn:E4; [reflexivity|].
  simpl. unfold plain. now rewrite Hs, E1, E2, E3, E4.
Qed.

Lemma sanitize_clean (s : pystr) : forallb plain (sanitize s) = true.
Proof.
  induction s as [|c s IH]; [reflexivity|].
  change (c :: s) with ([c] ++ s).
  now rewrite sanitize_app, forallb_app, sanitize_char_plain, IH.
Qed.

(** X3.  What [safe_eval] hands to the parser holds no white space, none of
    the display symbols for times, division and minus, and no caret; and
    normalising it again changes nothing. *)
Theorem sanitize_normal_form (s : pystr) :
  (forall c, In c (sanitize s) ->
             isspace c = false /\ c <> Chr.times /\ c <> Chr.obelus /\
             c <> Chr.minus /\ c <> Chr.caret) /\
  sanitize (sanitize s) = sanitize s.
Proof.
  pose proof (sanitize_clean s) as H. split.
  - intros c Hc. rewrite forallb_forall in H. specialize (H c Hc).
    unfold plain in H. repeat (apply andb_prop in H as [H ?]).
    repeat match goal with
           | X : negb _ = true |- _ => apply negb_true_iff in X
           end.
    repeat split; try assumption; now apply N.eqb_neq.
  - now apply sanitize_plain.
Qed.

Lemma sanitize_replace (old : char) (new s : pystr) :
  sanitize new = sanitize [old] ->
  sanitize (replace old new s) = sanitize s.
Proof.
  intros H. induction s as [|c s IH]; [reflexivity|].
  simpl replace. change (c :: s) with ([c] ++ s).
  rewrite !sanitize_app, IH. f_equal.
  destruct (c =? old)%N eqn:E; [|reflexivity].
  apply N.eqb_eq in E. now subst c.
Qed.

(** X4.  The outcome of an evaluation does not depend on how the text is
    spelt: white space may be added or removed anywhere, each display symbol
    may stand for its operator character and the caret for [**], and the
    normal form of a text evaluates as the text. *)
Theorem safe_eval_spelling
    (libm : Libm) (ast_parse : pystr -> result ast.node) :
  (forall a ws b,
      forallb isspace ws = true ->
      safe_eval libm ast_parse (a ++ ws ++ b)
      = safe_eval libm ast_parse (a ++ b)) /\
  (forall s,
      safe_eval libm ast_parse (replace Chr.times [Chr.star] s)
      = safe_eval libm ast_parse s /\
      safe_eval libm ast_parse (replace Chr.obelus [Chr.slash] s)
      = safe_eval libm ast_parse s /\
      safe_eval libm ast_parse (replace Chr.minus [Chr.hyphen] s)
      = safe_eval libm ast_parse s /\
      safe_eval libm ast_parse (replace Chr.caret [Chr.star; Chr.star] s)
      = safe_eval libm ast_parse s) /\
  (forall s, safe_eval libm ast_parse (sanitize s) = safe_eval libm ast_parse s).
Proof.
  assert (E : forall s1 s2, sanitize s1 = sanitize s2 ->
              safe_eval libm ast_parse s1 = safe_eval libm ast_parse s2).
  { intros s1 s2 H. unfold safe_eval. now rewrite H. }
  repeat split.
  - intros a ws b Hws. apply E.
    now rewrite !sanitize_app, (sanitize_spaces ws Hws).
  - apply E. now apply sanitize_replace.
  - apply E. now apply sanitize_replace.
  - apply E. now apply sanitize_replace.
  - apply E. now apply sanitize_replace.
  - intros s. apply E. now apply sanitize_plain, sanitize_clean.
Qed.

(** X5.  The parser is consulted exactly for the texts that are not blank:
    such a text evaluates to what the tree walk makes of its parse, and a
    failure of the parser (malformed syntax) is the failure of the
    evaluation. *)
Theorem nonblank_is_parsed
    (libm : Libm) (ast_parse : pystr -> result ast.node) (expr : pystr) :
  forallb isspace expr = false ->
  safe_eval libm ast_parse expr
  = (tree <- ast_parse (sanitize expr) ;; _eval_ast libm tree) /\
  (forall e, ast_parse (sanitize expr) = Raise e ->
             safe_eval libm ast_parse expr = Raise e).
Proof.
  intros H.
  assert (E : safe_eval libm ast_parse expr
              = (tree <- ast_parse (sanitize expr) ;; _eval_ast libm tree)).
  { unfold safe_eval. destruct (sanitize expr) eqn:Es; [|reflexivity].
    apply sanitize_nil in Es. congruence. }
  split; [exact E|]. intros e He. now rewrite E, He.
Qed.

Lemma nonblank_is_parsed_witness :
  safe_eval Sample.libm py_parse (py "2 +")
  = (tree <- py_parse (sanitize (py "2 +")) ;; _eval_ast Sample.libm tree) /\
  (forall e, py_parse (sanitize (py "2 +")) = Raise e ->
             safe_eval Sample.libm py_parse (py "2 +") = Raise e).
Proof. apply nonblank_is_parsed. reflexivity. Defined.

(** * Further properties of the operators *)

Lemma F_add_comm (x y : float) : F.add x y = F.add y x.
Proof.
  unfold F.add.
  destruct x as [[]|[]| |sx mx ex], y as [[]|[]| |sy my ey];
    try reflexivity.
  simpl. now rewrite Z.min_comm, Z.add_comm.
Qed.

Lemma F_mul_comm (x y : float) : F.mul x y = F.mul y x.
Proof.
  unfold F.mul.
  destruct x as [sx|sx| |sx mx ex], y as [sy|sy| |sy my ey];
    simpl; try reflexivity; try now rewrite xorb_comm.
  now rewrite xorb_comm, Pos.mul_comm, Z.add_comm.
Qed.

Lemma c_sum_comm (a b : complex) : c_sum a b = c_sum b a.
Proof.
  unfold c_sum. now rewrite (F_add_comm (real a)), (F_add_comm (imag a)).
Qed.

Lemma c_prod_comm (a b : complex) : c_prod a b = c_prod b a.
Proof.
  unfold c_prod.
  rewrite (F_mul_comm (real a) (real b)), (F_mul_comm (imag a) (imag b)),
    (F_mul_comm (real a) (imag b)), (F_mul_comm (imag a) (real b)).
  now rewrite F_add_comm.
Qed.

Lemma arith_comm
    (on_long : Z -> Z -> result value) (on_float : float -> float -> result value)
    (on_complex : complex -> complex -> result value) (v w : value) :
  (forall a b, on_long a b = on_long b a) ->
  (forall a b, on_float a b = on_float b a) ->
  (forall a b, on_complex a b = on_complex b a) ->
  arith on_long on_float on_complex v w = arith on_long on_float on_complex w v.
Proof.
  intros Hl Hf Hc. unfold arith.
  rewrite (andb_comm (is_real_value w)).
  destruct (as_long v) as [a|], (as_long w) as [b|]; try apply Hl;
    (destruct (is_real_value v && is_real_value w) eqn:Er;
     [ apply andb_prop in Er as [Hv Hw];
       destruct (convert_cases v Hv) as [->|[x ->]],
                (convert_cases w Hw) as [->|[y ->]]; simpl;
       try reflexivity; apply Hf
     | destruct (to_complex_cases v) as [->|[x ->]],
                (to_complex_cases w) as [->|[y ->]]; simpl;
       try reflexivity; apply Hc ]).
Qed.

(** X6.  Addition and multiplication commute on all values, floats and
    complex numbers included, and in failure as in success: the operands may
    be swapped without changing the value or the exception. *)
Theorem add_mul_commute (v w : value) :
  op.add v w = op.add w v /\ op.mul v w = op.mul w v.
Proof.
  split; apply arith_comm; intros a b.
  - now rewrite Z.add_comm.
  - now rewrite F_add_comm.
  - now rewrite c_sum_comm.
  - now rewrite Z.mul_comm.
  - now rewrite F_mul_comm.
  - now rewrite c_prod_comm.
Qed.

(** X7.  The remainder of two [int]s with a divisor other than zero is the
    floored one: it has the sign of the divisor, is smaller than it in
    absolute value, and differs from the dividend by a multiple of the
    divisor. *)
Theorem long_mod_sign (a b : Z) :
  b <> 0 ->
  exists r,
    op.mod_ (VInt a) (VInt b) = OK (VInt r) /\
    (0 <= r < b \/ b < r <= 0) /\
    exists q, a = b * q + r.
Proof.
  intros Hb. exists (a mod b). split; [|split].
  - unfold op.mod_, arith, op.long_mod. simpl.
    destruct (b =? 0) eqn:E; [apply Z.eqb_eq in E; contradiction|reflexivity].
  - destruct (Z.lt_total b 0) as [H|[H|H]]; [right|contradiction|left].
    + now apply Z.mod_neg_bound.
    + now apply Z.mod_pos_bound.
  - exists (a / b). now apply Z_div_mod_eq_full.
Qed.

Lemma long_mod_sign_witness :
  exists r,
    op.mod_ (VInt (-7)) (VInt 3) = OK (VInt r) /\
    (0 <= r < 3 \/ 3 < r <= 0) /\
    exists q, -7 = 3 * q + r.
Proof. apply long_mod_sign. discriminate. Defined.

Lemma F_opp_involutive (x : float) : F.opp (F.opp x) = x.
Proof. destruct x; simpl; now rewrite ?negb_involutive. Qed.

(** X8.  Two minus signs are a plus sign: [--x] evaluates as [+x], to the
    same value or the same exception; and a plus sign changes nothing but the
    type of a [bool], which becomes the [int] 1 or 0. *)
Theorem double_negation (libm : Libm) (t : ast.node) :
  _eval_ast libm (ast.UnaryOp ast.USub (ast.UnaryOp ast.USub t))
  = _eval_ast libm (ast.UnaryOp ast.UAdd t) /\
  _eval_ast libm (ast.UnaryOp ast.UAdd t)
  = (v <- _eval_ast libm t ;;
     OK (match v with VBool b => VInt (Z.b2z b) | _ => v end)).
Proof.
  split; simpl; destruct (_eval_ast libm t) as [[b|z|f|[re im]]|e]; simpl;
    try reflexivity.
  - now destruct b.
  - now rewrite Z.opp_involutive.
  - now rewrite F_opp_involutive.
  - unfold c_neg. simpl. now rewrite !F_opp_involutive.
Qed.

(** X9.  Anything to the power zero is one, zero to the power zero and NaN to
    the power zero included: the [int] 1 between two [int]s, otherwise the
    float 1.0, unless an [int] operand is too large to become a float. *)
Theorem power_zero (libm : Libm) (v w : value) :
  is_real_value v = true ->
  is_real_value w = true ->
  is_zero_value w = true ->
  match as_long v, as_long w with
  | Some _, Some _ => op.pow libm v w = OK (VInt 1)
  | _, _ =>
      op.pow libm v w = OK (VFloat F.one) \/
      op.pow libm v w = Raise OverflowError
  end.
Proof.
  intros Hv Hw Hz. unfold op.pow, arith.
  destruct (as_long v) as [a|] eqn:Ev, (as_long w) as [b|] eqn:Ew;
    try (rewrite Hv, Hw; simpl;
         destruct (convert_zero w Hw Hz) as (g & -> & Hg);
         destruct (convert_cases v Hv) as [->|[x ->]]; simpl;
         [now right | left];
         unfold float_pow;
         destruct g as [[]| | |]; try discriminate Hg; reflexivity).
  rewrite (as_long_zero w Hz Ew). reflexivity.
Qed.

Lemma power_zero_witness :
  op.pow Sample.libm (VFloat S754_nan) (VBool false) = OK (VFloat F.one) \/
  op.pow Sample.libm (VFloat S754_nan) (VBool false) = Raise OverflowError.
Proof.
  apply (@power_zero Sample.libm (VFloat S754_nan) (VBool false));
    reflexivity.
Defined.

(** * Further properties of the window *)











Lemma calculator_ext (a b : Calculator) : display a = display b -> a = b.
Proof. destruct a, b. simpl. now intros ->. Qed.

(** X12.  Backspace undoes the typing of one character, whether it came from
    a button or from a key, and removes the last character of a longer
    insertion; on an empty display it does nothing. *)
Theorem backspace_undoes_typing (self : Calculator) (t : pystr) (c : char) :
  _backspace (_insert_text self [c]) = self /\
  _backspace (_type_char self [c]) = self /\
  _backspace (_insert_text self (t ++ [c])) = _insert_text self t /\
  _backspace (_clear self) = _clear self.
Proof.
  assert (H : forall d, _backspace {| display := d ++ [c] |} = {| display := d |}).
  { intros d. unfold _backspace. cbn [display].
    destruct (d ++ [c]) eqn:E; [now destruct d|].
    rewrite <- E. now rewrite removelast_last. }
  repeat split.
  - unfold _insert_text. rewrite H. now apply calculator_ext.
  - unfold _type_char. rewrite H. now apply calculator_ext.
  - unfold _insert_text. now rewrite app_assoc, H.
Qed.




Lemma command_typing
    (libm : Libm) (ast_parse : pystr -> result ast.node)
    (text : pystr) (self : Calculator) :
  is_control text = false ->
  command libm ast_parse text self = _insert_text self text.
Proof.
  unfold is_control, command. intros H.
  apply orb_false_iff in H as [H H3]. apply orb_false_iff in H as [H1 H2].
  now rewrite H1, H2, H3.
Qed.

Lemma press_typing
    (libm : Libm) (ast_parse : pystr -> result ast.node)
    (texts : list pystr) (self : Calculator) :
  forallb (fun text => negb (is_control text)) texts = true ->
  press libm ast_parse texts self
  = {| display := display self ++ List.concat texts |}.
Proof.
  unfold press. revert self.
  induction texts as [|t ts IH]; intros self H; simpl.
  - rewrite app_nil_r. now apply calculator_ext.
  - apply andb_prop in H as [Ht Hts]. apply negb_true_iff in Ht.
    rewrite (command_typing libm ast_parse t self Ht), (IH _ Hts).
    simpl. now rewrite app_assoc.
Qed.

(** X15.  Pressing buttons that type, then "=", computes the text they
    spell after what the display held: the display then shows the result of
    evaluating that text, or "Error".  On the button grid the buttons that do
    not type are exactly the two of kind "ctrl" and the one of kind "eq". *)
Theorem buttons_spell_the_expression
    (libm : Libm) (ast_parse : pystr -> result ast.node)
    (texts : list pystr) (self : Calculator) :
  forallb (fun text => negb (is_control text)) texts = true ->
  press libm ast_parse (texts ++ [Key.equals]) self
  = _calculate libm ast_parse
      {| display := display self ++ List.concat texts |} /\
  forallb (fun '(text, _, _, kind) =>
             Bool.eqb (is_control text)
                      (String.eqb kind "ctrl" || String.eqb kind "eq"))
          buttons = true.
Proof.
  intros H. split; [|reflexivity].
  unfold press. rewrite fold_left_app. fold (press libm ast_parse texts self).
  now rewrite (press_typing libm ast_parse texts self H).
Qed.

Lemma buttons_spell_the_expression_witness :
  press Sample.libm py_parse
    [py "2"; [Chr.times]; py "3"; [Chr.minus]; py "1"; Key.equals]
    {| display := [] |}
  = {| display := py "5" |}.
Proof.
  apply (proj1 (@buttons_spell_the_expression Sample.libm py_parse
                  [py "2"; [Chr.times]; py "3"; [Chr.minus]; py "1"]
                  {| display := [] |} eq_refl)).
Defined.
